(** * Therapy-session dashboard: request handlers and client reconciliation

  A shallow embedding of the REST handlers ([GET]/[POST] of
  [/api/sessions], [PATCH] of [/api/sessions/[id]]) and of the client
  state logic of the dashboard page and its session table, with the
  properties of the design document stated against them.

  Conventions.
  - Tables are lists of rows in storage order; a query is a pure function
    of the store.  Storage failures are outside the model, so the
    handlers' catch-all branch is reached through a rejected
    [request.json()] only.
  - JavaScript strings are [string]s holding UTF-8 bytes; numbers that
    come out of JSON are rationals, integers are [Z].
  - What belongs to the validation library and to the JavaScript [Date]
    (the ISO date-time test, the conversion of a date string to a
    timestamp, the texts of the validation messages) is a section
    variable. *)

From Stdlib Require Import ZArith QArith List String Ascii Bool Lia.
From Stdlib Require Import Sorting.Sorted Sorting.Permutation.
Import ListNotations.

Local Set Warnings "-register-all".
Local Open Scope string_scope.
Local Open Scope Z_scope.

(* ================================================================== *)
(** ** JSON values, as produced by [request.json()] / [response.json()] *)

Module Json.

Inductive t : Type :=
| JNull
| JBool (b : bool)
| JNum (q : Q)
| JStr (s : string)
| JArr (items : list t)
| JObj (fields : list (string * t)).

(** Property read [o[k]]: [None] is JavaScript's [undefined]. *)
Fixpoint assoc (k : string) (fields : list (string * t)) : option t :=
  match fields with
  | [] => None
  | (k', v) :: rest => if String.eqb k k' then Some v else assoc k rest
  end.

Definition get (k : string) (j : t) : option t :=
  match j with
  | JObj fields => assoc k fields
  | _ => None
  end.

(** [Number.isInteger] on a JSON number. *)
Definition isInteger (q : Q) : bool :=
  (Qnum q mod Zpos (Qden q) =? 0)%Z.

Definition toInteger (q : Q) : Z := (Qnum q / Zpos (Qden q))%Z.

Definition isPositive (q : Q) : bool := (0 <? Qnum q)%Z.

(** JavaScript truthiness of an optional string ([undefined], [null] and
    the empty string are falsy). *)
Definition truthy (s : option string) : bool :=
  match s with
  | Some s' => negb (String.eqb s' "")
  | None => false
  end.

End Json.

(* ================================================================== *)
(** ** [parseInt(string)] with no radix argument *)

Module JsParseInt.

Definition code (c : ascii) : Z := Z.of_nat (nat_of_ascii c).

(** Number of bytes of the white space or line terminator character at
    the head of [s] (0 when there is none): TAB, LF, VT, FF, CR, SP, and
    the UTF-8 encodings of U+00A0, U+1680, U+2000..U+200A, U+2028,
    U+2029, U+202F, U+205F, U+3000 and U+FEFF. *)
Definition ws_len (s : string) : nat :=
  match s with
  | EmptyString => 0%nat
  | String c0 r0 =>
      let b0 := code c0 in
      if ((9 <=? b0) && (b0 <=? 13)) || (b0 =? 32) then 1%nat
      else match r0 with
           | EmptyString => 0%nat
           | String c1 r1 =>
               let b1 := code c1 in
               if (b0 =? 194) && (b1 =? 160) then 2%nat
               else match r1 with
                    | EmptyString => 0%nat
                    | String c2 _ =>
                        let b2 := code c2 in
                        if (b0 =? 225) && (b1 =? 154) && (b2 =? 128) then 3%nat
                        else if (b0 =? 226) && (b1 =? 128) &&
                                (((128 <=? b2) && (b2 <=? 138))
                                 || (b2 =? 168) || (b2 =? 169) || (b2 =? 175))
                             then 3%nat
                        else if (b0 =? 226) && (b1 =? 129) && (b2 =? 159) then 3%nat
                        else if (b0 =? 227) && (b1 =? 128) && (b2 =? 128) then 3%nat
                        else if (b0 =? 239) && (b1 =? 187) && (b2 =? 191) then 3%nat
                        else 0%nat
                    end
           end
  end.

Fixpoint drop (n : nat) (s : string) : string :=
  match n, s with
  | S n', String _ r => drop n' r
  | _, _ => s
  end.

Fixpoint trimStart_fuel (fuel : nat) (s : string) : string :=
  match fuel with
  | O => s
  | S fuel' =>
      match ws_len s with
      | O => s
      | n => trimStart_fuel fuel' (drop n s)
      end
  end.

Definition trimStart (s : string) : string :=
  trimStart_fuel (String.length s) s.

(** Value of [c] as a digit of the given radix (10 or 16). *)
Definition digit (radix : Z) (c : ascii) : option Z :=
  let b := code c in
  let v :=
    if (48 <=? b) && (b <=? 57) then Some (b - 48)
    else if (97 <=? b) && (b <=? 122) then Some (b - 87)
    else if (65 <=? b) && (b <=? 90) then Some (b - 55)
    else None in
  match v with
  | Some d => if d <? radix then Some d else None
  | None => None
  end.

(** Reads the longest prefix of radix digits; [acc] is [None] until a
    digit has been read. *)
Fixpoint digits (radix : Z) (acc : option Z) (s : string) : option Z :=
  match s with
  | EmptyString => acc
  | String c r =>
      match digit radix c with
      | Some d =>
          digits radix
            (Some (radix * match acc with Some a => a | None => 0 end + d)) r
      | None => acc
      end
  end.

(** [parseInt(s)]: [None] is [NaN].  The result is the mathematical
    integer read; it equals the JavaScript number below 2^53. *)
Definition parseInt (s : string) : option Z :=
  let s1 := trimStart s in
  let '(sign, s2) :=
    match s1 with
    | String "-"%char r => (-1, r)
    | String "+"%char r => (1, r)
    | _ => (1, s1)
    end in
  let '(radix, s3) :=
    match s2 with
    | String "0"%char (String "x"%char r) => (16, r)
    | String "0"%char (String "X"%char r) => (16, r)
    | _ => (10, s2)
    end in
  match digits radix None s3 with
  | Some n => Some (sign * n)
  | None => None
  end.

End JsParseInt.

(* ================================================================== *)
(** ** The validation schemas *)

Module Zod.

Import Json.

(** What a schema check reports.  [Required] is the type issue raised on
    [undefined]. *)
Inductive IssueKind : Type :=
| Required
| InvalidType
| NotInteger
| NotPositive
| InvalidEnumValue
| InvalidDatetime.

Record Issue : Type := mkIssue { path : list string; kind : IssueKind }.

(** [z.number().int().positive()]: the type test stops the field's checks,
    the two refinements are both run. *)
Definition number_int_positive (v : option Json.t) : list IssueKind + Z :=
  match v with
  | None => inl [Required]
  | Some (JNum q) =>
      match ((if isInteger q then [] else [NotInteger]) ++
             (if isPositive q then [] else [NotPositive]))%list with
      | [] => inr (toInteger q)
      | ks => inl ks
      end
  | Some _ => inl [InvalidType]
  end.

(** [z.string().datetime()], over the library's ISO date-time test. *)
Definition string_datetime (is_datetime : string -> bool) (v : option Json.t)
  : list IssueKind + string :=
  match v with
  | None => inl [Required]
  | Some (JStr s) => if is_datetime s then inr s else inl [InvalidDatetime]
  | Some _ => inl [InvalidType]
  end.

Inductive SessionStatus : Type := Scheduled | Completed.

Definition status_text (s : SessionStatus) : string :=
  match s with
  | Scheduled => "Scheduled"
  | Completed => "Completed"
  end.

(** [z.enum(['Scheduled', 'Completed'])] *)
Definition enum_status (v : option Json.t) : list IssueKind + SessionStatus :=
  match v with
  | None => inl [Required]
  | Some (JStr s) =>
      if String.eqb s "Scheduled" then inr Scheduled
      else if String.eqb s "Completed" then inr Completed
      else inl [InvalidEnumValue]
  | Some _ => inl [InvalidType]
  end.

Definition issues_at {A : Type} (key : string) (r : list IssueKind + A)
  : list Issue :=
  match r with
  | inl ks => map (mkIssue [key]) ks
  | inr _ => []
  end.

Record CreateSession : Type := mkCreateSession {
  cs_therapist_id : Z;
  cs_patient_id : Z;
  cs_date : string
}.

(** [createSessionSchema.parse(body)]: [inl] is the thrown [ZodError] with
    its issues, in the order of the schema's keys; unknown keys of the body
    are dropped. *)
Definition createSessionSchema (is_datetime : string -> bool) (body : Json.t)
  : list Issue + CreateSession :=
  match body with
  | JObj _ =>
      let t := number_int_positive (get "therapist_id" body) in
      let p := number_int_positive (get "patient_id" body) in
      let d := string_datetime is_datetime (get "date" body) in
      match t, p, d with
      | inr tv, inr pv, inr dv => inr (mkCreateSession tv pv dv)
      | _, _, _ =>
          inl (issues_at "therapist_id" t ++ issues_at "patient_id" p
               ++ issues_at "date" d)%list
      end
  | _ => inl [mkIssue [] InvalidType]
  end.

(** [updateSessionSchema.parse(body)] *)
Definition updateSessionSchema (body : Json.t) : list Issue + SessionStatus :=
  match body with
  | JObj _ =>
      match enum_status (get "status" body) with
      | inr s => inr s
      | inl ks => inl (map (mkIssue ["status"]) ks)
      end
  | _ => inl [mkIssue [] InvalidType]
  end.

(** [path.join('.')] *)
Fixpoint join_path (p : list string) : string :=
  match p with
  | [] => ""
  | [k] => k
  | k :: rest => (k ++ "." ++ join_path rest)%string
  end.

End Zod.

(* ================================================================== *)
(** ** The three tables and the queries the handlers issue *)

Module Db.

Record Therapist : Type := mkTherapist {
  t_id : Z;
  t_name : string;
  t_specialty : option string
}.

Record Patient : Type := mkPatient {
  p_id : Z;
  p_name : string;
  p_dob : option string
}.

(** [date] is the stored timestamp, [status] a text column. *)
Record Session : Type := mkSession {
  id : Z;
  therapist_id : Z;
  patient_id : Z;
  date : Z;
  status : string
}.

(** [sessions_id_seq] is the next value of the serial key of [sessions]. *)
Record Store : Type := mkStore {
  therapists : list Therapist;
  patients : list Patient;
  sessions : list Session;
  sessions_id_seq : Z
}.

(** The projection selected by the list and create handlers; a name is
    [None] (SQL [NULL]) when the left join found no row. *)
Record SessionWithDetails : Type := mkDetails {
  d_id : Z;
  d_date : Z;
  d_status : string;
  d_therapist_id : Z;
  d_patient_id : Z;
  d_therapist_name : option string;
  d_patient_name : option string
}.

Definition leftJoin {A B : Type} (on : A -> B -> bool)
  (l : list A) (r : list B) : list (A * option B) :=
  flat_map
    (fun a =>
       match filter (on a) r with
       | [] => [(a, None)]
       | ms => map (fun b => (a, Some b)) ms
       end) l.

Definition project (row : Session * option Therapist * option Patient)
  : SessionWithDetails :=
  let '(s, t, p) := row in
  mkDetails (id s) (date s) (status s) (therapist_id s) (patient_id s)
    (option_map t_name t) (option_map p_name p).

(** [from(sessions).leftJoin(therapists, ...).leftJoin(patients, ...)] with
    the handlers' projection. *)
Definition joined (st : Store) : list SessionWithDetails :=
  map project
    (leftJoin (fun (sp : Session * option Therapist) p =>
                 patient_id (fst sp) =? p_id p)
       (leftJoin (fun s t => therapist_id s =? t_id t)
          (sessions st) (therapists st))
       (patients st)).

(** [orderBy(sessions.date)]: ascending, rows of equal date kept in the
    order the join produced them. *)
Fixpoint insert_by_date (x : SessionWithDetails) (l : list SessionWithDetails)
  : list SessionWithDetails :=
  match l with
  | [] => [x]
  | y :: rest =>
      if d_date x <? d_date y then x :: l else y :: insert_by_date x rest
  end.

Definition orderBy_date (l : list SessionWithDetails)
  : list SessionWithDetails :=
  fold_left (fun acc x => insert_by_date x acc) l [].

Definition select_sessions_joined_ordered (st : Store)
  : list SessionWithDetails :=
  orderBy_date (joined st).

Definition select_session_joined_by_id (st : Store) (sid : Z)
  : list SessionWithDetails :=
  firstn 1 (filter (fun d => d_id d =? sid) (joined st)).

Definition select_therapist_id (st : Store) (tid : Z) : list Z :=
  firstn 1 (map t_id (filter (fun t => t_id t =? tid) (therapists st))).

Definition select_patient_id (st : Store) (pid : Z) : list Z :=
  firstn 1 (map p_id (filter (fun p => p_id p =? pid) (patients st))).

(** [select({id, status}).from(sessions).where(eq(id, sid)).limit(1)] *)
Definition select_session_status (st : Store) (sid : Z) : list (Z * string) :=
  firstn 1
    (map (fun s => (id s, status s))
       (filter (fun s => id s =? sid) (sessions st))).

(** [insert(sessions).values(...).returning()] *)
Definition insert_session (st : Store) (tid pid : Z) (d : Z) (stat : string)
  : list Session * Store :=
  let row := mkSession (sessions_id_seq st) tid pid d stat in
  ([row],
   mkStore (therapists st) (patients st) (sessions st ++ [row])%list
     (sessions_id_seq st + 1)).

(** [update(sessions).set({status}).where(eq(id, sid)).returning()] *)
Definition update_session_status (st : Store) (sid : Z) (stat : string)
  : list Session * Store :=
  let set (s : Session) :=
    mkSession (id s) (therapist_id s) (patient_id s) (date s) stat in
  let rows :=
    map (fun s => if id s =? sid then set s else s) (sessions st) in
  (map set (filter (fun s => id s =? sid) (sessions st)),
   mkStore (therapists st) (patients st) rows (sessions_id_seq st)).

End Db.

(* ================================================================== *)
(** ** The route handlers *)

Module Api.

Import Json Zod Db.

(** Outcome of [await request.json()]. *)
Inductive JsonResult : Type :=
| Parsed (body : Json.t)
| Rejected (error_text : string).

Record Detail : Type := mkDetail { field : string; message : string }.

Inductive Body : Type :=
| BError (error : string)
| BErrorMessage (error : string) (message : string)
| BValidation (error : string) (details : list Detail)
| BSessions (rows : list SessionWithDetails)
| BCreated (row : option SessionWithDetails)
| BNoChange (message : string) (session : Z * string)
| BUpdated (message : string) (session : Session).

Record Response : Type := mkResponse {
  status_code : Z;
  body : Body;
  headers : list (string * string)
}.

Section Handlers.

Variable is_datetime : string -> bool.
Variable Date_of : string -> Z.
Variable issue_message : Issue -> string.
Variable NODE_ENV : string.

Definition json_response (b : Body) (code : Z) : Response :=
  mkResponse code b [].

Definition validation_failed (issues : list Issue) : Response :=
  json_response
    (BValidation "Validation failed"
       (map (fun err => mkDetail (join_path (path err)) (issue_message err))
          issues))
    400.

Definition internal_error (what : string) (error_text : string) : Response :=
  json_response
    (BErrorMessage what
       (if String.eqb NODE_ENV "development" then error_text
        else "Internal server error"))
    500.

(** [GET /api/sessions] *)
Definition GET (st : Store) : Response :=
  mkResponse 200 (BSessions (select_sessions_joined_ordered st))
    [("Cache-Control", "public, s-maxage=30, stale-while-revalidate=300");
     ("CDN-Cache-Control", "public, s-maxage=60")].

(** [POST /api/sessions] *)
Definition POST (st : Store) (request : JsonResult) : Response * Store :=
  match request with
  | Rejected e => (internal_error "Failed to create session" e, st)
  | Parsed body =>
      match createSessionSchema is_datetime body with
      | inl issues => (validation_failed issues, st)
      | inr validated =>
          let therapistExists :=
            select_therapist_id st (cs_therapist_id validated) in
          let patientExists :=
            select_patient_id st (cs_patient_id validated) in
          if (List.length therapistExists =? 0)%nat then
            (json_response (BError "Invalid therapist ID") 400, st)
          else if (List.length patientExists =? 0)%nat then
            (json_response (BError "Invalid patient ID") 400, st)
          else
            let '(inserted, st1) :=
              insert_session st (cs_therapist_id validated)
                (cs_patient_id validated) (Date_of (cs_date validated))
                "Scheduled" in
            match inserted with
            | [] =>
                (json_response
                   (BError "Failed to create session - no session returned")
                   500, st1)
            | newSession :: _ =>
                let completeSession :=
                  hd_error (select_session_joined_by_id st1 (id newSession)) in
                (mkResponse 201 (BCreated completeSession)
                   [("Cache-Control", "no-cache")], st1)
            end
      end
  end.

(** [PATCH /api/sessions/[id]] *)
Definition PATCH (st : Store) (id_param : string) (request : JsonResult)
  : Response * Store :=
  let sessionId := JsParseInt.parseInt id_param in
  match sessionId with
  | None => (json_response (BError "Invalid session ID format") 400, st)
  | Some sid =>
      if sid <=? 0 then
        (json_response (BError "Invalid session ID format") 400, st)
      else
        match request with
        | Rejected e => (internal_error "Failed to update session" e, st)
        | Parsed body =>
            match updateSessionSchema body with
            | inl issues => (validation_failed issues, st)
            | inr validated =>
                match select_session_status st sid with
                | [] => (json_response (BError "Session not found") 404, st)
                | existing :: _ =>
                    if String.eqb (snd existing) (status_text validated) then
                      (json_response
                         (BNoChange "Session already has the requested status"
                            existing) 200, st)
                    else
                      let '(updated, st1) :=
                        update_session_status st sid (status_text validated) in
                      match updated with
                      | [] =>
                          (json_response (BError "Session not found") 404, st1)
                      | updatedSession :: _ =>
                          (mkResponse 200
                             (BUpdated "Session updated successfully"
                                updatedSession)
                             [("Cache-Control", "no-cache")], st1)
                      end
                end
            end
        end
  end.

End Handlers.

End Api.

(* ================================================================== *)
(** ** The client: the shared request helper, the dashboard page and the
       session table *)

Module Client.

Import Json.

(** A value thrown or a rejection reason.  [JsError] is an [Error]
    instance, flagged when it is a [TypeError]. *)
Inductive Thrown : Type :=
| JsError (is_TypeError : bool) (message : string)
| NonError.

(** What [fetch] resolved with: [headers_get] is [None] when the response
    has no [headers.get] (test doubles), else the value of the
    [content-type] header; [json] is the outcome of [response.json()]. *)
Record FetchResponse (D : Type) : Type := mkFetchResponse {
  ok : bool;
  http_status : Z;
  statusText : string;
  headers_get : option (option string);
  json : Thrown + D
}.

Arguments mkFetchResponse {D}.
Arguments ok {D}.
Arguments http_status {D}.
Arguments statusText {D}.
Arguments headers_get {D}.
Arguments json {D}.

Inductive FetchResult (D : Type) : Type :=
| Resolved (response : FetchResponse D)
| FetchRejected (reason : Thrown).

Arguments Resolved {D}.
Arguments FetchRejected {D}.

(** [s.includes(sub)] *)
Fixpoint includes (sub s : string) : bool :=
  match s with
  | EmptyString => String.prefix sub s
  | String _ rest => String.prefix sub s || includes sub rest
  end.

Definition truthy_json (j : Json.t) : bool :=
  match j with
  | JNull => false
  | JBool b => b
  | JNum q => negb (Qnum q =? 0)
  | JStr s => negb (String.eqb s "")
  | JArr _ | JObj _ => true
  end.

(** [a || b] on two property reads. *)
Definition js_or (a b : option Json.t) : option Json.t :=
  match a with
  | Some v => if truthy_json v then a else b
  | None => b
  end.

(** A session as the page holds it. *)
Record SessionWithDetails : Type := mkRow {
  id : Z;
  therapist_id : Z;
  patient_id : Z;
  date : string;
  status : string;
  therapist_name : option string;
  patient_name : option string
}.

(** The body of the list response read at the page's type: an array is a
    list of sessions. *)
Inductive ListData : Type :=
| DNull
| DBool (b : bool)
| DNum (q : Q)
| DStr (s : string)
| DArr (rows : list SessionWithDetails)
| DObj (fields : list (string * Json.t)).

Definition Array_isArray (d : ListData) : bool :=
  match d with
  | DArr _ => true
  | _ => false
  end.

Record HomeState : Type := mkHome {
  sessions : list SessionWithDetails;
  loading : bool;
  error : option string;
  showCreateModal : bool;
  successMessage : option string
}.

(** The page together with the table's own state. *)
Record App : Type := mkApp {
  home : HomeState;
  updatingSessionId : option Z
}.

(** What a pending [handleMarkCompleted] call holds across its [await]. *)
Record PendingUpdate : Type := mkPending {
  pu_sessionId : Z;
  pu_originalStatus : option string
}.

Inductive Handler : Type :=
| FetchSessions
| OpenCreateModal
| MarkCompleted (sessionId : Z).

Inductive HomeView : Type :=
| ErrorPanel (error_text : string) (retry : Handler)
| Dashboard (banner : option string) (sessionCount : nat)
    (refreshDisabled : bool).

Inductive RowAction : Type :=
| MarkCompletedButton (disabled : bool) (spinner : bool) (label : string)
    (onClick : Handler)
| CompletedIndicator
| NoAction.

Inductive TableView : Type :=
| LoadingSkeleton
| EmptyState
| Rows (rows : list (SessionWithDetails * RowAction)).

Section Page.

Variable NODE_ENV : string.
Variable js_String : Json.t -> string.

Definition apiCall_catch (e : Thrown) : Thrown :=
  match e with
  | JsError true "Failed to fetch" =>
      JsError false "Network error: Unable to connect to server"
  | _ => e
  end.

(** [apiCall(url, options)]: [inl] is the value thrown. *)
Definition apiCall (r : FetchResult Json.t) : Thrown + Json.t :=
  match r with
  | FetchRejected e => inl (apiCall_catch e)
  | Resolved response =>
      let contentType :=
        match headers_get response with
        | Some v => v
        | None => Some "application/json"
        end in
      if negb (String.eqb NODE_ENV "test") && truthy contentType
         && negb (includes "application/json"
                    (match contentType with Some c => c | None => "" end))
      then
        inl (apiCall_catch
               (JsError false
                  ("Unexpected response type: " ++
                   match contentType with Some c => c | None => "" end)))
      else
        match json response with
        | inl e => inl (apiCall_catch e)
        | inr data =>
            if negb (ok response) then
              match data with
              | JNull =>
                  inl (apiCall_catch
                         (JsError true
                            "Cannot read properties of null (reading 'error')"))
              | _ =>
                  let errorMessage :=
                    match js_or (get "error" data) (get "message" data) with
                    | Some v =>
                        if truthy_json v then js_String v
                        else ("HTTP " ++
                              js_String (JNum (inject_Z (http_status response)))
                              ++ ": " ++ statusText response)%string
                    | None =>
                        ("HTTP " ++
                         js_String (JNum (inject_Z (http_status response)))
                         ++ ": " ++ statusText response)%string
                    end in
                  inl (apiCall_catch (JsError false errorMessage))
              end
            else inr data
        end
  end.

(** [fetchSessions], up to its first [await]. *)
Definition fetchSessions_begin (st : HomeState) : HomeState :=
  mkHome (sessions st) true None (showCreateModal st) (successMessage st).

Definition fetchSessions_try (r : FetchResult ListData)
  : Thrown + list SessionWithDetails :=
  match r with
  | FetchRejected e => inl e
  | Resolved response =>
      if negb (ok response) then
        inl (JsError false "Failed to fetch sessions")
      else
        match json response with
        | inl e => inl e
        | inr data =>
            if Array_isArray data then
              match data with
              | DArr rows => inr rows
              | _ => inr []
              end
            else inl (JsError false "Invalid response format")
        end
  end.

(** [fetchSessions], from the settling of [fetch] to its end. *)
Definition fetchSessions_settle (r : FetchResult ListData) (st : HomeState)
  : HomeState :=
  let st1 :=
    match fetchSessions_try r with
    | inr data =>
        mkHome data (loading st) (error st) (showCreateModal st)
          (successMessage st)
    | inl err =>
        mkHome (sessions st) (loading st)
          (Some match err with
                | JsError _ message => message
                | NonError => "An error occurred"
                end)
          (showCreateModal st) (successMessage st)
    end in
  mkHome (sessions st1) false (error st1) (showCreateModal st1)
    (successMessage st1).

Definition with_status (session : SessionWithDetails) (s : string)
  : SessionWithDetails :=
  mkRow (id session) (therapist_id session) (patient_id session)
    (date session) s (therapist_name session) (patient_name session).

Definition handleSessionUpdate (sessionId : Z) (st : HomeState) : HomeState :=
  mkHome
    (map (fun session =>
            if id session =? sessionId then with_status session "Completed"
            else session)
       (sessions st))
    (loading st) (error st) (showCreateModal st)
    (Some "Session marked as completed").

Definition handleSessionUpdateError (sessionId : Z) (originalStatus : string)
  (st : HomeState) : HomeState :=
  mkHome
    (map (fun session =>
            if id session =? sessionId then with_status session originalStatus
            else session)
       (sessions st))
    (loading st) (Some "Failed to update session. Please try again.")
    (showCreateModal st) (successMessage st).

(** The two timers of three seconds. *)
Definition clear_successMessage (st : HomeState) : HomeState :=
  mkHome (sessions st) (loading st) (error st) (showCreateModal st) None.

Definition clear_error (st : HomeState) : HomeState :=
  mkHome (sessions st) (loading st) None (showCreateModal st)
    (successMessage st).

(** [handleMarkCompleted(sessionId)] up to its [await]; [props_sessions] is
    the list the table was rendered with. *)
Definition handleMarkCompleted_begin (props_sessions : list SessionWithDetails)
  (sessionId : Z) (app : App) : App * PendingUpdate :=
  let session := find (fun s => id s =? sessionId) props_sessions in
  let originalStatus := option_map status session in
  (mkApp (handleSessionUpdate sessionId (home app)) (Some sessionId),
   mkPending sessionId originalStatus).

(** [handleMarkCompleted] from the settling of [apiCall] to its end; the
    page always passes [onSessionUpdateError]. *)
Definition handleMarkCompleted_settle (p : PendingUpdate)
  (result : Thrown + Json.t) (app : App) : App :=
  let home1 :=
    match result with
    | inr _ => home app
    | inl _ =>
        match pu_originalStatus p with
        | Some originalStatus =>
            if truthy (Some originalStatus) then
              handleSessionUpdateError (pu_sessionId p) originalStatus
                (home app)
            else home app
        | None => home app
        end
    end in
  mkApp home1 None.

(** [updatingSessionId === session.id] *)
Definition isUpdating (app : App) (sessionId : Z) : bool :=
  match updatingSessionId app with
  | Some u => u =? sessionId
  | None => false
  end.

Definition row_action (app : App) (session : SessionWithDetails) : RowAction :=
  if String.eqb (status session) "Scheduled" then
    MarkCompletedButton (isUpdating app (id session))
      (isUpdating app (id session))
      (if isUpdating app (id session) then "Updating..." else "Mark Completed")
      (MarkCompleted (id session))
  else if String.eqb (status session) "Completed" then CompletedIndicator
  else NoAction.

Definition SessionTable_view (props_sessions : list SessionWithDetails)
  (props_loading : bool) (app : App) : TableView :=
  if props_loading then LoadingSkeleton
  else if (List.length props_sessions =? 0)%nat then EmptyState
  else Rows (map (fun s => (s, row_action app s)) props_sessions).

(** The page's top-level choice between the error panel and the dashboard. *)
Definition Home_view (st : HomeState) : HomeView :=
  match error st with
  | Some e =>
      if truthy (Some e) then ErrorPanel e FetchSessions
      else Dashboard (successMessage st) (List.length (sessions st))
             (loading st)
  | None =>
      Dashboard (successMessage st) (List.length (sessions st)) (loading st)
  end.

End Page.

End Client.

(* ================================================================== *)
(** ** The properties as the design document words them *)

Module Spec.

Import Json.

(** "Must parse as a positive integer", read strictly: a non-empty run of
    decimal digits, and nothing else, whose value is positive. *)
Fixpoint all_decimal (s : string) : bool :=
  match s with
  | EmptyString => true
  | String c rest =>
      ((48 <=? JsParseInt.code c) && (JsParseInt.code c <=? 57))
      && all_decimal rest
  end.

Definition positive_integer_text (s : string) : bool :=
  negb (String.eqb s "") && all_decimal s
  && match JsParseInt.digits 10 None s with
     | Some n => 0 <? n
     | None => false
     end.

(** "[therapist_id] and [patient_id] must each be a positive integer". *)
Definition valid_id (v : option Json.t) : bool :=
  match v with
  | Some (JNum q) => isInteger q && isPositive q
  | _ => false
  end.

(** "[date] must be a syntactically valid timestamp". *)
Definition valid_date (is_datetime : string -> bool) (v : option Json.t)
  : bool :=
  match v with
  | Some (JStr s) => is_datetime s
  | _ => false
  end.

Definition field_ok (is_datetime : string -> bool) (body : Json.t)
  (f : string) : bool :=
  if String.eqb f "date" then valid_date is_datetime (get f body)
  else valid_id (get f body).

Definition create_fields : list string :=
  ["therapist_id"; "patient_id"; "date"].

(** The rows a list response carries. *)
Definition listed (r : Api.Response) : list Db.SessionWithDetails :=
  match Api.body r with
  | Api.BSessions rows => rows
  | _ => []
  end.

Definition date_le (a b : Db.SessionWithDetails) : Prop :=
  Db.d_date a <= Db.d_date b.

Definition date_lt (a b : Db.SessionWithDetails) : Prop :=
  Db.d_date a < Db.d_date b.

(** "Exists in its table". *)
Definition therapist_exists (st : Db.Store) (tid : Z) : Prop :=
  exists t, In t (Db.therapists st) /\ Db.t_id t = tid.

Definition patient_exists (st : Db.Store) (pid : Z) : Prop :=
  exists p, In p (Db.patients st) /\ Db.p_id p = pid.

(** The three ways a status update fails on the wire: the request is
    rejected, the response is not a success, or the response is not
    readable as JSON. *)
Inductive update_failed : Client.FetchResult Json.t -> Prop :=
| network_error (reason : Client.Thrown) :
    update_failed (Client.FetchRejected reason)
| non_success_status (response : Client.FetchResponse Json.t) :
    Client.ok response = false ->
    update_failed (Client.Resolved response)
| malformed_response (response : Client.FetchResponse Json.t)
    (e : Client.Thrown) :
    Client.json response = inl e ->
    update_failed (Client.Resolved response).

End Spec.

(* ================================================================== *)
(** ** Sample stores *)

Module Fixtures.

Import Db.

(** The rows of the reference schema's example data. *)
Definition seed_therapists : list Therapist :=
  [mkTherapist 1 "Anna SLP" (Some "Speech Therapy");
   mkTherapist 2 "Becca OT" (Some "Occupational Therapy");
   mkTherapist 3 "Carlos PT" (Some "Physical Therapy")].

Definition seed_patients : list Patient :=
  [mkPatient 1 "Ariel Underwood" (Some "2018-06-15");
   mkPatient 2 "Nemo Fisher" (Some "2017-03-02");
   mkPatient 3 "Moana Lee" (Some "2016-12-25");
   mkPatient 4 "Elsa Frost" (Some "2019-09-10")].

(** Timestamps are milliseconds since the epoch:
    2025-11-08T09:00Z, 2025-11-09T11:00Z and 2025-11-08T13:00Z. *)
Definition nov8_0900 : Z := 1762592400000.
Definition nov9_1100 : Z := 1762686000000.
Definition nov8_1300 : Z := 1762606800000.

(** Three sessions inserted out of date order. *)
Definition three_sessions : Store :=
  mkStore seed_therapists seed_patients
    [mkSession 1 1 1 nov8_0900 "Scheduled";
     mkSession 2 2 4 nov9_1100 "Scheduled";
     mkSession 3 1 3 nov8_1300 "Completed"]
    4.

(** Two therapists booked at the same time. *)
Definition double_booked : Store :=
  mkStore seed_therapists seed_patients
    [mkSession 1 1 1 nov8_0900 "Scheduled";
     mkSession 2 2 4 nov8_0900 "Scheduled"]
    3.

(** A session whose therapist id has no row. *)
Definition dangling_therapist : Store :=
  mkStore seed_therapists seed_patients
    [mkSession 1 99 1 nov8_0900 "Scheduled"]
    2.

(** A store in which session 12 exists. *)
Definition twelve_sessions : Store :=
  mkStore seed_therapists seed_patients
    (map (fun i => mkSession i 1 1 (nov8_0900 + i) "Scheduled")
       [1; 2; 3; 4; 5; 6; 7; 8; 9; 10; 11; 12])
    13.

(** A stand-in for the library's date-time test: exactly the shape
    [dddd-dd-ddTdd:dd:ddZ]. *)
Fixpoint matches_shape (shape s : string) : bool :=
  match shape, s with
  | EmptyString, EmptyString => true
  | String p shape', String c s' =>
      (if Ascii.eqb p "d"%char
       then (48 <=? JsParseInt.code c) && (JsParseInt.code c <=? 57)
       else Ascii.eqb p c)
      && matches_shape shape' s'
  | _, _ => false
  end.

Definition utc_seconds (s : string) : bool :=
  matches_shape "dddd-dd-ddTdd:dd:ddZ" s.

(** A stand-in for [new Date(s)], exact on the one date of the creation
    scenario. *)
Definition jan1_2030_1000 : Z := 1893492000000.

Definition sample_Date_of (s : string) : Z :=
  if String.eqb s "2030-01-01T10:00:00Z" then jan1_2030_1000 else 0.

Definition sample_message (i : Zod.Issue) : string :=
  match Zod.kind i with
  | Zod.Required => "Required"
  | Zod.InvalidType => "Invalid type"
  | Zod.NotInteger => "Expected integer, received float"
  | Zod.NotPositive => "Number must be greater than 0"
  | Zod.InvalidEnumValue => "Invalid enum value"
  | Zod.InvalidDatetime => "Invalid datetime"
  end.

Definition production : string := "production".

(** The body of the creation scenario, with a status the client has no say
    over. *)
Definition scenario_fields : list (string * Json.t) :=
  [("therapist_id", Json.JNum (1 # 1));
   ("patient_id", Json.JNum (1 # 1));
   ("date", Json.JStr "2030-01-01T10:00:00Z");
   ("status", Json.JStr "Completed")].

Definition unknown_therapist_fields : list (string * Json.t) :=
  [("therapist_id", Json.JNum (99 # 1));
   ("patient_id", Json.JNum (1 # 1));
   ("date", Json.JStr "2030-01-01T10:00:00Z")].

Definition completed_body : Json.t :=
  Json.JObj [("status", Json.JStr "Completed")].

(** The page's list in the component tests: sessions 1 and 3 scheduled,
    session 2 completed. *)
Definition page_rows : list Client.SessionWithDetails :=
  [Client.mkRow 1 1 1 "2025-11-15T09:00:00.000Z" "Scheduled"
     (Some "Dr. Sarah Johnson") (Some "John Smith");
   Client.mkRow 2 2 2 "2025-11-16T14:30:00.000Z" "Completed"
     (Some "Dr. Michael Chen") (Some "Emma Wilson");
   Client.mkRow 3 1 3 "2025-11-17T11:00:00.000Z" "Scheduled"
     (Some "Dr. Sarah Johnson") (Some "David Brown")].

Definition loaded_page : Client.App :=
  Client.mkApp (Client.mkHome page_rows false None false None) None.

(** A response with status 500 and an error body. *)
Definition server_error_response : Client.FetchResponse Json.t :=
  Client.mkFetchResponse false 500 "Internal Server Error"
    (Some (Some "application/json"))
    (inr (Json.JObj [("error", Json.JStr "Failed to update session")])).

Definition server_error : Client.FetchResult Json.t :=
  Client.Resolved server_error_response.

(** A successful list response whose body is [null]. *)
Definition null_list : Client.FetchResponse Client.ListData :=
  Client.mkFetchResponse true 200 "OK" (Some (Some "application/json"))
    (inr Client.DNull).

Definition sample_js_String (j : Json.t) : string :=
  match j with
  | Json.JStr s => s
  | Json.JNull => "null"
  | Json.JBool true => "true"
  | Json.JBool false => "false"
  | Json.JNum _ => "0"
  | Json.JArr _ => ""
  | Json.JObj _ => "[object Object]"
  end.

End Fixtures.

(* ================================================================== *)
(** ** The earlier copies of the session handlers ([app/api/sessions]) *)

Module Legacy.

Import Json Zod Db.

Inductive Body : Type :=
| LError (error : string)
| LInvalidInput (error : string) (details : list Issue)
| LSessions (rows : list SessionWithDetails)
| LSession (row : option Session).

Record Response : Type := mkResponse {
  status_code : Z;
  body : Body
}.

(** [GET /api/sessions] *)
Definition GET (st : Store) : Response :=
  mkResponse 200 (LSessions (select_sessions_joined_ordered st)).

(** [POST /api/sessions]: no look-up of the therapist or the patient. *)
Definition POST (is_datetime : string -> bool) (Date_of : string -> Z)
  (st : Store) (request : Api.JsonResult) : Response * Store :=
  match request with
  | Api.Rejected _ => (mkResponse 500 (LError "Internal server error"), st)
  | Api.Parsed body =>
      match createSessionSchema is_datetime body with
      | inl issues => (mkResponse 400 (LInvalidInput "Invalid input" issues), st)
      | inr validated =>
          let '(inserted, st1) :=
            insert_session st (cs_therapist_id validated)
              (cs_patient_id validated) (Date_of (cs_date validated))
              "Scheduled" in
          (mkResponse 201 (LSession (hd_error inserted)), st1)
      end
  end.

(** [PATCH /api/sessions/[id]]: only [NaN] is refused as an id, and the
    update is issued without reading the row first. *)
Definition PATCH (st : Store) (id_param : string) (request : Api.JsonResult)
  : Response * Store :=
  match JsParseInt.parseInt id_param with
  | None => (mkResponse 400 (LError "Invalid session ID"), st)
  | Some sessionId =>
      match request with
      | Api.Rejected _ => (mkResponse 500 (LError "Internal server error"), st)
      | Api.Parsed body =>
          match updateSessionSchema body with
          | inl issues =>
              (mkResponse 400 (LInvalidInput "Invalid input" issues), st)
          | inr validated =>
              let '(rows, st1) :=
                update_session_status st sessionId (status_text validated) in
              match rows with
              | [] => (mkResponse 404 (LError "Session not found"), st1)
              | updated :: _ => (mkResponse 200 (LSession (Some updated)), st1)
              end
          end
      end
  end.

End Legacy.

(* ================================================================== *)
(** ** Numbers in template literals *)

Module JsNumber.

Definition digit_char (d : Z) : ascii := ascii_of_nat (Z.to_nat (48 + d)).

(** Decimal digits of [n], most significant first, in front of [acc]. *)
Fixpoint decimal_fuel (fuel : nat) (n : Z) (acc : string) : string :=
  match fuel with
  | O => acc
  | S fuel' =>
      let acc' := String (digit_char (n mod 10)) acc in
      if n <? 10 then acc' else decimal_fuel fuel' (n / 10) acc'
  end.

Definition decimal (n : Z) : string :=
  decimal_fuel (S (Z.to_nat (Z.log2 n))) n "".

(** [String(n)] for an integer [n]; JavaScript writes an integer this way
    below 10^21 in absolute value. *)
Definition toString (n : Z) : string :=
  if n <? 0 then String "-"%char (decimal (- n)) else decimal n.

(** The largest integer a JavaScript number holds exactly together with
    all smaller ones. *)
Definition MAX_SAFE_INTEGER : Z := 9007199254740991.

End JsNumber.

(* ================================================================== *)
(** ** The shared form utilities ([lib/utils]) *)

Module Utils.

Import Json.

(** No byte of [s] before the end belongs to anything but white space. *)
Definition all_white (s : string) : bool :=
  String.eqb (JsParseInt.trimStart s) "".

Fixpoint trimEnd (s : string) : string :=
  match s with
  | EmptyString => EmptyString
  | String c rest => if all_white s then EmptyString else String c (trimEnd rest)
  end.

(** [s.trim()] *)
Definition trim (s : string) : string := trimEnd (JsParseInt.trimStart s).

Record ValidationError : Type := mkValidationError {
  field : string;
  message : string
}.

(** [s.replace(/_/g, " ")] *)
Fixpoint underscores_to_spaces (s : string) : string :=
  match s with
  | EmptyString => EmptyString
  | String c rest =>
      String (if Ascii.eqb c "_"%char then " "%char else c)
        (underscores_to_spaces rest)
  end.

Section WithBuiltins.

(** [toUpperCase] of a one-character string, [new Date(s).getTime()]
    ([None] is [NaN]) and the current time. *)
Variable toUpperCase : string -> string.
Variable Date_getTime : string -> option Z.
Variable now : Z.

(** [field.charAt(0).toUpperCase() + field.slice(1).replace(/_/g, " ")]
    followed by [" is required"]; field names are ASCII keys. *)
Definition required_message (field : string) : string :=
  match field with
  | EmptyString => (toUpperCase "" ++ " is required")%string
  | String c rest =>
      (toUpperCase (String c EmptyString) ++ underscores_to_spaces rest
       ++ " is required")%string
  end.

(** The test of one field: [!value || (typeof value === "string" &&
    value.trim() === "")]. *)
Definition is_missing (value : option Json.t) : bool :=
  match value with
  | None => true
  | Some v =>
      negb (Client.truthy_json v)
      || match v with
         | JStr s => String.eqb (trim s) ""
         | _ => false
         end
  end.

(** [validateRequiredFields(data, requiredFields)], [data] being an
    object. *)
Fixpoint validateRequiredFields (data : list (string * Json.t))
  (requiredFields : list string) : list ValidationError :=
  match requiredFields with
  | [] => []
  | f :: rest =>
      if is_missing (assoc f data)
      then mkValidationError f (required_message f)
             :: validateRequiredFields data rest
      else validateRequiredFields data rest
  end.

(** [validateFutureDate(dateValue, minHoursAhead)] for a whole number of
    hours. *)
Definition validateFutureDate (dateValue : string) (minHoursAhead : Z)
  : string :=
  if String.eqb dateValue "" then "Date is required"
  else
    let minAllowedTime := now + minHoursAhead * 60 * 60 * 1000 in
    match Date_getTime dateValue with
    | None => "Invalid date format"
    | Some selectedDate =>
        if selectedDate <=? minAllowedTime then
          ("Session must be scheduled at least "
           ++ JsNumber.toString minHoursAhead ++ " hour"
           ++ (if (1 <? minHoursAhead)%Z then "s" else "") ++ " in advance")%string
        else ""
    end.

End WithBuiltins.

End Utils.

(* ================================================================== *)
(** ** The dashboard page: filtering, sorting and what follows a creation *)

Module Dashboard.

Import Json Client.

Inductive SortBy : Type := ByDate | ByTherapist | ByPatient.

Inductive SortOrder : Type := Asc | Desc.

Record Filters : Type := mkFilters {
  searchTerm : string;
  statusFilter : string;
  sortBy : SortBy;
  sortOrder : SortOrder
}.

(** What the comparator compares: a [Date] by its time value ([None] is an
    invalid date) or a string. *)
Inductive SortValue : Type :=
| VDate (time : option Z)
| VString (s : string).

(** [Array.prototype.sort(compare)]: stable; an element goes in front of
    the first one it compares below. *)
Fixpoint insert_sorted {A : Type} (compare : A -> A -> Z) (x : A)
  (l : list A) : list A :=
  match l with
  | [] => [x]
  | y :: rest =>
      if compare x y <? 0 then x :: l else y :: insert_sorted compare x rest
  end.

Definition sort {A : Type} (compare : A -> A -> Z) (l : list A) : list A :=
  fold_left (fun acc x => insert_sorted compare x acc) l [].

Section WithBuiltins.

(** [s.toLowerCase()], [new Date(s).getTime()] ([None] is [NaN]) and [<]
    on strings. *)
Variable toLowerCase : string -> string.
Variable Date_getTime : string -> option Z.
Variable string_lt : string -> string -> bool.

(** [name?.toLowerCase().includes(searchTerm.toLowerCase())], [undefined]
    read as false. *)
Definition name_matches (name : option string) (term : string) : bool :=
  match name with
  | Some n => includes (toLowerCase term) (toLowerCase n)
  | None => false
  end.

Definition matchesSearch (f : Filters) (session : SessionWithDetails) : bool :=
  name_matches (therapist_name session) (searchTerm f)
  || name_matches (patient_name session) (searchTerm f).

Definition matchesStatus (f : Filters) (session : SessionWithDetails) : bool :=
  String.eqb (statusFilter f) "All"
  || String.eqb (status session) (statusFilter f).

Definition or_empty (name : option string) : string :=
  match name with
  | Some n => n
  | None => ""
  end.

Definition sort_value (by_ : SortBy) (session : SessionWithDetails)
  : SortValue :=
  match by_ with
  | ByDate => VDate (Date_getTime (date session))
  | ByTherapist => VString (or_empty (therapist_name session))
  | ByPatient => VString (or_empty (patient_name session))
  end.

(** [a < b] on two sort values. *)
Definition value_lt (a b : SortValue) : bool :=
  match a, b with
  | VDate (Some x), VDate (Some y) => x <? y
  | VString x, VString y => string_lt x y
  | _, _ => false
  end.

Definition compare (f : Filters) (a b : SessionWithDetails) : Z :=
  let aValue := sort_value (sortBy f) a in
  let bValue := sort_value (sortBy f) b in
  if value_lt aValue bValue then
    match sortOrder f with Asc => -1 | Desc => 1 end
  else if value_lt bValue aValue then
    match sortOrder f with Asc => 1 | Desc => -1 end
  else 0.

(** [filteredSessions], the list handed to the table. *)
Definition filteredSessions (f : Filters) (l : list SessionWithDetails)
  : list SessionWithDetails :=
  sort (compare f)
    (filter (fun session => matchesSearch f session && matchesStatus f session)
       l).

End WithBuiltins.

Definition clearFilters (f : Filters) : Filters :=
  mkFilters "" "All" (sortBy f) (sortOrder f).

Definition hasActiveFilters (f : Filters) : bool :=
  negb (String.eqb (searchTerm f) "")
  || negb (String.eqb (statusFilter f) "All").

(** [handleSessionCreated]: the refetch is started and the banner set. *)
Definition handleSessionCreated (st : HomeState) : HomeState :=
  let st1 := fetchSessions_begin st in
  mkHome (sessions st1) (loading st1) (error st1) (showCreateModal st1)
    (Some "Session created successfully").

(** The modal's [onSuccess] as the page passes it. *)
Definition onCreateSuccess (st : HomeState) : HomeState :=
  handleSessionCreated
    (mkHome (sessions st) (loading st) (error st) false (successMessage st)).

End Dashboard.

(* ================================================================== *)
(** ** The creation form *)

Module CreateSessionModal.

Import Json.

Record FormData : Type := mkFormData {
  therapist_id : string;
  patient_id : string;
  date : string
}.

Record Modal : Type := mkModal {
  formData : FormData;
  fieldErrors : list (string * string);
  error : option string;
  isSubmitting : bool
}.

Definition emptyForm : FormData := mkFormData "" "" "".

(** [errors[k] = v] on an object kept as a list of its entries. *)
Fixpoint obj_set (k v : string) (o : list (string * string))
  : list (string * string) :=
  match o with
  | [] => [(k, v)]
  | (k', v') :: rest =>
      if String.eqb k k' then (k, v) :: rest else (k', v') :: obj_set k v rest
  end.

Definition formData_object (fd : FormData) : list (string * Json.t) :=
  [("therapist_id", JStr (therapist_id fd));
   ("patient_id", JStr (patient_id fd));
   ("date", JStr (date fd))].

(** A number under [JSON.stringify]: [NaN] is written [null]. *)
Definition stringify_number (n : option Z) : Json.t :=
  match n with
  | Some z => JNum (inject_Z z)
  | None => JNull
  end.

Section WithBuiltins.

Variable toUpperCase : string -> string.
Variable Date_getTime : string -> option Z.
Variable now : Z.
Variable toISOString : Z -> string.

Definition validateDate (dateValue : string) : string :=
  Utils.validateFutureDate Date_getTime now dateValue 1.

(** [validateForm()]: the errors it stores and its verdict. *)
Definition validateForm (fd : FormData) : list (string * string) * bool :=
  let requiredErrors :=
    Utils.validateRequiredFields toUpperCase (formData_object fd)
      ["therapist_id"; "patient_id"; "date"] in
  let errors :=
    fold_left
      (fun errors e =>
         if String.eqb (Utils.field e) "therapist_id" then
           obj_set "therapist_id" "Please select a therapist" errors
         else if String.eqb (Utils.field e) "patient_id" then
           obj_set "patient_id" "Please select a patient" errors
         else obj_set (Utils.field e) (Utils.message e) errors)
      requiredErrors [] in
  let dateError := validateDate (date fd) in
  let errors :=
    if negb (String.eqb dateError "") then obj_set "date" dateError errors
    else errors in
  (errors, (List.length errors =? 0)%nat).

(** [handleSubmit] up to its [await]: the modal and, when a request is
    sent, its body. *)
Definition handleSubmit_begin (st : Modal) : Modal * option Json.t :=
  let '(errors, valid) := validateForm (formData st) in
  if negb valid then
    (mkModal (formData st) errors (error st) (isSubmitting st), None)
  else
    match Date_getTime (date (formData st)) with
    | None =>
        (mkModal (formData st) [] (Some "Invalid time value") false, None)
    | Some t =>
        (mkModal (formData st) [] None true,
         Some (JObj
                 [("therapist_id",
                   stringify_number
                     (JsParseInt.parseInt (therapist_id (formData st))));
                  ("patient_id",
                   stringify_number
                     (JsParseInt.parseInt (patient_id (formData st))));
                  ("date", JStr (toISOString t))]))
    end.

(** [handleSubmit] from the settling of [apiCall]: the modal and whether
    [onSuccess] was called. *)
Definition handleSubmit_settle (result : Client.Thrown + Json.t) (st : Modal)
  : Modal * bool :=
  match result with
  | inr _ => (mkModal emptyForm [] (error st) false, true)
  | inl err =>
      (mkModal (formData st) (fieldErrors st)
         (Some match err with
               | Client.JsError _ message => message
               | Client.NonError => "Failed to create session"
               end)
         false, false)
  end.

End WithBuiltins.

(** The reset that runs when the modal is closed. *)
Definition reset_on_close (st : Modal) : Modal :=
  mkModal emptyForm [] None (isSubmitting st).

End CreateSessionModal.

(* ================================================================== *)
(** ** What the storage layer keeps true, and the requests the client
       builds *)

Module Invariants.

Import Db.

(** The primary key of [sessions]: the sequence is positive, ids are
    distinct, positive and below its next value; statuses are the two of
    the enumeration. *)
Definition store_wf (st : Store) : Prop :=
  0 < sessions_id_seq st
  /\ NoDup (map id (sessions st))
  /\ Forall (fun s => 0 < id s < sessions_id_seq st) (sessions st)
  /\ Forall (fun s => status s = "Scheduled" \/ status s = "Completed")
       (sessions st).

(** A session row with another status. *)
Definition set_status (stat : string) (s : Session) : Session :=
  mkSession (id s) (therapist_id s) (patient_id s) (date s) stat.

Definition set_details_status (sid : Z) (stat : string)
  (d : SessionWithDetails) : SessionWithDetails :=
  if d_id d =? sid then
    mkDetails (d_id d) (d_date d) stat (d_therapist_id d) (d_patient_id d)
      (d_therapist_name d) (d_patient_name d)
  else d.

(** The path parameter and the body of the request that
    [handleMarkCompleted] sends:
    [`/api/sessions/${sessionId}`] and [{ status: "Completed" }]. *)
Definition markCompleted_id_param (sessionId : Z) : string :=
  JsNumber.toString sessionId.

Definition markCompleted_body : Json.t :=
  Json.JObj [("status", Json.JStr "Completed")].

End Invariants.

(* ================================================================== *)
(** ** What the form checks are about *)

Module FormSpec.

(** A form value counts as filled in when it is a string with something
    other than white space in it, or another truthy value. *)
Definition filled (v : option Json.t) : Prop :=
  match v with
  | Some (Json.JStr s) => JsParseInt.trimStart s <> ""
  | Some v' => Client.truthy_json v' = true
  | None => False
  end.

Definition one_hour : Z := 60 * 60 * 1000.

End FormSpec.

(* ================================================================== *)
(** ** Sample built-ins and sample states for the client *)

Module Samples.

Definition lower_char (c : ascii) : ascii :=
  let b := JsParseInt.code c in
  if (65 <=? b) && (b <=? 90) then ascii_of_nat (Z.to_nat (b + 32)) else c.

Definition upper_char (c : ascii) : ascii :=
  let b := JsParseInt.code c in
  if (97 <=? b) && (b <=? 122) then ascii_of_nat (Z.to_nat (b - 32)) else c.

Fixpoint map_chars (f : ascii -> ascii) (s : string) : string :=
  match s with
  | EmptyString => EmptyString
  | String c rest => String (f c) (map_chars f rest)
  end.

(** Lower and upper case on ASCII text. *)
Definition toLowerCase (s : string) : string := map_chars lower_char s.
Definition toUpperCase (s : string) : string := map_chars upper_char s.

(** The value of a [datetime-local] input for 1 January 2030, 10:00 UTC,
    and a clock about a day before. *)
Definition form_date : string := "2030-01-01T10:00".
Definition now : Z := 1893400000000.

Definition Date_getTime (s : string) : option Z :=
  if String.eqb s form_date then Some Fixtures.jan1_2030_1000
  else if String.eqb s "2025-11-15T09:00:00.000Z" then Some 1763197200000
  else if String.eqb s "2025-11-16T14:30:00.000Z" then Some 1763303400000
  else if String.eqb s "2025-11-17T11:00:00.000Z" then Some 1763377200000
  else None.

Definition toISOString (ms : Z) : string :=
  if ms =? Fixtures.jan1_2030_1000 then "2030-01-01T10:00:00.000Z"
  else "1970-01-01T00:00:00.000Z".

Definition utc_millis (s : string) : bool :=
  Fixtures.matches_shape "dddd-dd-ddTdd:dd:dd.dddZ" s.

Definition all_filter : Dashboard.Filters :=
  Dashboard.mkFilters "" "All" Dashboard.ByDate Dashboard.Asc.

Definition scheduled_filter : Dashboard.Filters :=
  Dashboard.mkFilters "" "Scheduled" Dashboard.ByDate Dashboard.Asc.

(** A session whose therapist and patient are both missing. *)
Definition nameless_row : Client.SessionWithDetails :=
  Client.mkRow 4 99 98 "2025-11-18T09:00:00.000Z" "Scheduled" None None.

Definition filled_modal : CreateSessionModal.Modal :=
  CreateSessionModal.mkModal
    (CreateSessionModal.mkFormData "1" "1" form_date) [] None false.

Definition rows_response : Client.FetchResponse Client.ListData :=
  Client.mkFetchResponse true 200 "OK" (Some (Some "application/json"))
    (inr (Client.DArr Fixtures.page_rows)).

End Samples.

(* ================================================================== *)
(** ** The range of the integer columns *)

Module Int4.

Import Json Zod Db Api.

(** The keys and the two references of a session are [integer] columns
    ([serial] for the keys).  A query whose parameter does not fit the
    column throws, and the handler's catch-all answers. *)
Definition max : Z := 2147483647.
Definition min : Z := -2147483648.

Definition fits (z : Z) : bool := (min <=? z) && (z <=? max).

Section Handlers.

Variable is_datetime : string -> bool.
Variable Date_of : string -> Z.
Variable issue_message : Issue -> string.
Variable NODE_ENV : string.

(** The text of the error the pair of existence queries throws for these
    two ids, when one of them is out of range. *)
Variable query_error_text : Z -> Z -> string.

(** [POST /api/sessions] with that failure: the two existence queries run
    together on the validated ids, before anything is tested or written. *)
Definition POST (st : Store) (request : JsonResult) : Response * Store :=
  match request with
  | Parsed body =>
      match createSessionSchema is_datetime body with
      | inr validated =>
          if fits (cs_therapist_id validated) then
            if fits (cs_patient_id validated) then
              Api.POST is_datetime Date_of issue_message NODE_ENV st request
            else
              (internal_error NODE_ENV "Failed to create session"
                 (query_error_text (cs_therapist_id validated)
                    (cs_patient_id validated)), st)
          else
            (internal_error NODE_ENV "Failed to create session"
               (query_error_text (cs_therapist_id validated)
                  (cs_patient_id validated)), st)
      | inl _ => Api.POST is_datetime Date_of issue_message NODE_ENV st request
      end
  | Rejected _ =>
      Api.POST is_datetime Date_of issue_message NODE_ENV st request
  end.

End Handlers.

End Int4.

(* ================================================================== *)
(** ** Bounds of two JavaScript built-ins *)

Module JsBounds.



(** The largest time value a [Date] holds, in milliseconds. *)
Definition max_time : Z := 8640000000000000.

End JsBounds.

(* ================================================================== *)
(** ** Sample requests at the edge of the integer range *)

Module RangeSamples.

Definition out_of_range_fields : list (string * Json.t) :=
  [("therapist_id", Json.JNum (3000000000 # 1));
   ("patient_id", Json.JNum (1 # 1));
   ("date", Json.JStr "2030-01-01T10:00:00Z")].

Definition range_error_text (therapist_id patient_id : Z) : string :=
  "value out of range for type integer".


End RangeSamples.

(* ================================================================== *)
(** ** Properties of the route handlers *)

Module ApiProps.

Import Json Zod Db Api.

Lemma find_filter_head {A : Type} (f : A -> bool) (l : list A) (a : A) :
  find f l = Some a -> exists rest, filter f l = a :: rest.
Proof.
  induction l as [|b l IH]; simpl; [discriminate|].
  destruct (f b) eqn:Hb.
  - intros [= ->]. now exists (filter f l).
  - exact IH.
Qed.

Lemma select_session_status_found (st : Store) (sid : Z) (s : Session) :
  find (fun r => id r =? sid) (sessions st) = Some s ->
  select_session_status st sid = [(sid, status s)].
Proof.
  intros Hf. unfold select_session_status.
  destruct (find_filter_head _ _ _ Hf) as [rest ->].
  apply find_some in Hf. destruct Hf as [_ Hid].
  apply Z.eqb_eq in Hid. simpl. now rewrite Hid.
Qed.

(** *** The left joins *)

Lemma leftJoin_app {A B : Type} (on : A -> B -> bool) (l1 l2 : list A)
  (r : list B) :
  leftJoin on (l1 ++ l2) r = (leftJoin on l1 r ++ leftJoin on l2 r)%list.
Proof. unfold leftJoin. apply flat_map_app. Qed.

Lemma in_leftJoin {A B : Type} (on : A -> B -> bool) (l : list A)
  (r : list B) (a : A) (ob : option B) :
  In (a, ob) (leftJoin on l r) <->
  In a l /\ match ob with
            | None => filter (on a) r = []
            | Some b => In b r /\ on a b = true
            end.
Proof.
  unfold leftJoin. rewrite in_flat_map. split.
  - intros [a' [Ha' Hin]].
    destruct (filter (on a') r) as [|m ms] eqn:Hf.
    + destruct Hin as [[= <- <-]|[]]. now split.
    + apply in_map_iff in Hin. destruct Hin as [b [[= <- <-] Hb]].
      split; [assumption|]. rewrite <- Hf in Hb. now apply filter_In in Hb.
  - intros [Ha Hob]. exists a. split; [assumption|].
    destruct ob as [b|].
    + assert (Hb : In b (filter (on a) r)) by now apply filter_In.
      destruct (filter (on a) r) as [|m ms]; [contradiction|].
      apply in_map_iff. now exists b.
    + rewrite Hob. now left.
Qed.


(** A joined row carries its session's columns, and a name only when a
    row of the other table has the referenced id. *)
Lemma in_joined (st : Store) (row : SessionWithDetails) :
  In row (joined st) <->
  exists s ot op,
    row = project (s, ot, op)
    /\ In s (sessions st)
    /\ match ot with
       | None => filter (fun t => therapist_id s =? t_id t) (therapists st) = []
       | Some t => In t (therapists st) /\ therapist_id s = t_id t
       end
    /\ match op with
       | None => filter (fun p => patient_id s =? p_id p) (patients st) = []
       | Some p => In p (patients st) /\ patient_id s = p_id p
       end.
Proof.
  unfold joined. rewrite in_map_iff. split.
  - intros [[[s ot] op] [<- Hin]]. exists s, ot, op.
    apply in_leftJoin in Hin. destruct Hin as [Hin Hop].
    apply in_leftJoin in Hin. destruct Hin as [Hs Hot]. simpl in Hop.
    repeat split; try assumption.
    + destruct ot as [t|]; [|assumption].
      destruct Hot as [Ht Ho]. split; [assumption|]. now apply Z.eqb_eq.
    + destruct op as [p|]; [|assumption].
      destruct Hop as [Hp Ho]. split; [assumption|]. now apply Z.eqb_eq.
  - intros [s [ot [op [-> [Hs [Hot Hop]]]]]]. exists (s, ot, op).
    split; [reflexivity|]. apply in_leftJoin. split.
    + apply in_leftJoin. split; [assumption|].
      destruct ot as [t|]; [|assumption].
      destruct Hot as [Ht Ho]. split; [assumption|]. now apply Z.eqb_eq.
    + simpl. destruct op as [p|]; [|assumption].
      destruct Hop as [Hp Ho]. split; [assumption|]. now apply Z.eqb_eq.
Qed.


Lemma joined_app (ts : list Therapist) (ps : list Patient)
  (l1 l2 : list Session) (n : Z) :
  joined (mkStore ts ps (l1 ++ l2) n) =
  (joined (mkStore ts ps l1 n) ++ joined (mkStore ts ps l2 n))%list.
Proof. unfold joined. simpl. now rewrite !leftJoin_app, map_app. Qed.

Lemma filter_none {A : Type} (f : A -> bool) (l : list A) :
  (forall x, In x l -> f x = false) -> filter f l = [].
Proof.
  induction l as [|a l IH]; simpl; intros H; [reflexivity|].
  rewrite (H a) by now left. apply IH. intros x Hx. apply H. now right.
Qed.


Lemma joined_has_session_row (st : Store) (s : Session) :
  In s (sessions st) ->
  exists ot op,
    In (project (s, ot, op)) (joined st)
    /\ (~ Spec.therapist_exists st (therapist_id s) -> ot = None)
    /\ (~ Spec.patient_exists st (patient_id s) -> op = None).
Proof.
  intros Hs.
  assert (Hc : forall (B : Type) (f : B -> bool) (l : list B),
            exists o : option B,
              match o with
              | None => filter f l = []
              | Some b => In b l /\ f b = true
              end).
  { intros B f l. destruct (filter f l) as [|b m] eqn:Hf.
    - now exists None.
    - exists (Some b). apply filter_In. rewrite Hf. now left. }
  destruct (Hc _ (fun t => therapist_id s =? t_id t) (therapists st))
    as [ot Hot].
  destruct (Hc _ (fun p => patient_id s =? p_id p) (patients st))
    as [op Hop].
  exists ot, op. split; [|split].
  - apply in_joined. exists s, ot, op. repeat split; try assumption.
    + destruct ot as [t|]; [|assumption]. destruct Hot as [Ht Ho].
      split; [assumption|]. now apply Z.eqb_eq.
    + destruct op as [p|]; [|assumption]. destruct Hop as [Hp Ho].
      split; [assumption|]. now apply Z.eqb_eq.
  - intros Hno. destruct ot as [t|]; [|reflexivity]. exfalso. apply Hno.
    destruct Hot as [Ht Ho]. exists t. split; [assumption|].
    apply Z.eqb_eq in Ho. now symmetry.
  - intros Hno. destruct op as [p|]; [|reflexivity]. exfalso. apply Hno.
    destruct Hop as [Hp Ho]. exists p. split; [assumption|].
    apply Z.eqb_eq in Ho. now symmetry.
Qed.

(** *** Ordering by date *)

Lemma insert_by_date_perm (x : SessionWithDetails)
  (l : list SessionWithDetails) :
  Permutation (x :: l) (insert_by_date x l).
Proof.
  induction l as [|y l IH]; simpl; [apply Permutation_refl|].
  destruct (d_date x <? d_date y); [apply Permutation_refl|].
  apply perm_trans with (y :: x :: l); [apply perm_swap|].
  now apply perm_skip.
Qed.

Lemma insert_by_date_sorted (x : SessionWithDetails)
  (l : list SessionWithDetails) :
  StronglySorted Spec.date_le l ->
  StronglySorted Spec.date_le (insert_by_date x l).
Proof.
  induction 1 as [|y l Hs IH Hall]; simpl.
  - constructor; constructor.
  - destruct (Z.ltb_spec (d_date x) (d_date y)) as [Hlt|Hge].
    + constructor; [now constructor|]. constructor.
      * unfold Spec.date_le. lia.
      * eapply Forall_impl; [|exact Hall]. unfold Spec.date_le. intros; lia.
    + constructor; [exact IH|].
      rewrite Forall_forall in *. intros z Hz.
      apply (Permutation_in _ (Permutation_sym (insert_by_date_perm x l)))
        in Hz.
      destruct Hz as [<-|Hz]; [exact Hge | now apply Hall].
Qed.

Lemma orderBy_date_acc (l acc : list SessionWithDetails) :
  StronglySorted Spec.date_le acc ->
  StronglySorted Spec.date_le
    (fold_left (fun acc x => insert_by_date x acc) l acc)
  /\ Permutation (acc ++ l)
       (fold_left (fun acc x => insert_by_date x acc) l acc).
Proof.
  revert acc. induction l as [|x l IH]; simpl; intros acc Hacc.
  - split; [assumption|]. now rewrite app_nil_r.
  - destruct (IH (insert_by_date x acc) (insert_by_date_sorted x acc Hacc))
      as [Hs Hp].
    split; [assumption|].
    eapply perm_trans; [|exact Hp].
    pose proof (Permutation_app_tail l (insert_by_date_perm x acc)) as Hq.
    eapply perm_trans; [|exact Hq].
    simpl. apply Permutation_sym, Permutation_middle.
Qed.

Lemma orderBy_date_sorted (l : list SessionWithDetails) :
  StronglySorted Spec.date_le (orderBy_date l).
Proof. apply (orderBy_date_acc l []). constructor. Qed.

Lemma orderBy_date_perm (l : list SessionWithDetails) :
  Permutation l (orderBy_date l).
Proof. apply (orderBy_date_acc l []). constructor. Qed.

Lemma sorted_perm_unique (l1 l2 : list Z) :
  StronglySorted Z.le l1 -> StronglySorted Z.le l2 ->
  Permutation l1 l2 -> l1 = l2.
Proof.
  intros H1. revert l2.
  induction H1 as [|a l1 Hs1 IH Ha]; intros l2 H2 Hp.
  - apply Permutation_nil in Hp. now subst.
  - destruct H2 as [|b l2 Hs2 Hb].
    + apply Permutation_sym, Permutation_nil in Hp. discriminate.
    + assert (a = b).
      { rewrite Forall_forall in Ha, Hb.
        assert (Hab : In a (b :: l2))
          by (apply (Permutation_in _ Hp); now left).
        assert (Hba : In b (a :: l1))
          by (apply (Permutation_in _ (Permutation_sym Hp)); now left).
        destruct Hab as [->|Hab]; [reflexivity|].
        destruct Hba as [->|Hba]; [reflexivity|].
        specialize (Ha b Hba). specialize (Hb a Hab). lia. }
      subst b. f_equal. apply IH; [assumption|].
      now apply Permutation_cons_inv with a.
Qed.

Lemma joined_perm (st st' : Store) :
  Permutation (sessions st) (sessions st') ->
  therapists st = therapists st' ->
  patients st = patients st' ->
  Permutation (joined st) (joined st').
Proof.
  intros Hp Ht Hq. unfold joined, leftJoin. rewrite Ht, Hq.
  apply Permutation_map, Permutation_flat_map, Permutation_flat_map.
  exact Hp.
Qed.

Lemma sorted_dates (l : list SessionWithDetails) :
  StronglySorted Spec.date_le l -> StronglySorted Z.le (map d_date l).
Proof.
  induction 1 as [|a l Hs IH Ha]; simpl; constructor; [assumption|].
  rewrite Forall_forall in *. intros z Hz. apply in_map_iff in Hz.
  destruct Hz as [b [<- Hb]]. now apply Ha.
Qed.

Lemma sorted_nodup_strict (l : list SessionWithDetails) :
  StronglySorted Spec.date_le l -> NoDup (map d_date l) ->
  StronglySorted Spec.date_lt l.
Proof.
  induction 1 as [|a l Hs IH Ha]; simpl; intros Hnd; constructor.
  - apply IH. now inversion Hnd.
  - inversion Hnd as [|? ? Hnot Hnd']; subst.
    rewrite Forall_forall in *. intros b Hb.
    specialize (Ha b Hb). unfold Spec.date_le, Spec.date_lt in *.
    assert (d_date a <> d_date b).
    { intros Heq. apply Hnot. rewrite Heq. now apply in_map. }
    lia.
Qed.

Lemma filter_unique_key {B : Type} (key : B -> Z) (k : Z) (l : list B) :
  NoDup (map key l) ->
  (List.length (filter (fun b => (k =? key b)%Z) l) <= 1)%nat.
Proof.
  induction l as [|a l IH]; simpl; intros Hnd; [lia|].
  inversion Hnd as [|? ? Hnot Hnd']; subst.
  destruct (Z.eqb_spec k (key a)) as [->|_]; [|now apply IH].
  rewrite filter_none; [simpl; lia|].
  intros x Hx. apply Z.eqb_neq. intros Heq. apply Hnot.
  rewrite Heq. now apply in_map.
Qed.

Lemma leftJoin_single {A B : Type} (on : A -> B -> bool) (l : list A)
  (r : list B) :
  (forall a, (List.length (filter (on a) r) <= 1)%nat) ->
  leftJoin on l r = map (fun a => (a, hd_error (filter (on a) r))) l.
Proof.
  intros H. induction l as [|a l IH]; [reflexivity|].
  change (leftJoin on (a :: l) r) with
    (match filter (on a) r with
     | [] => [(a, None)]
     | ms => map (fun b => (a, Some b)) ms
     end ++ leftJoin on l r)%list.
  rewrite IH. specialize (H a). cbn [map].
  destruct (filter (on a) r) as [|b [|c m]]; simpl in *; [reflexivity..|lia].
Qed.

(** With unique keys in the two joined tables every session gives one
    row. *)
Lemma joined_dates (st : Store) :
  NoDup (map t_id (therapists st)) ->
  NoDup (map p_id (patients st)) ->
  map d_date (joined st) = map date (sessions st).
Proof.
  intros Ht Hp. unfold joined.
  rewrite (leftJoin_single (fun s t => therapist_id s =? t_id t)).
  2: { intros a. now apply filter_unique_key. }
  rewrite (leftJoin_single
             (fun (sp : Session * option Therapist) p =>
                patient_id (fst sp) =? p_id p)).
  2: { intros a. now apply filter_unique_key. }
  rewrite !map_map. reflexivity.
Qed.

(** C8, as the query has it.  The list comes back in ascending order of
    date, rows of equal date allowed; it holds the joined rows, each once;
    it is strictly ascending when the dates of the sessions are pairwise
    distinct (keys of the joined tables being unique); and the sequence of
    dates does not depend on the order in which the sessions were
    inserted. *)
Theorem list_is_ascending_by_date (st : Store) :
  StronglySorted Spec.date_le (Spec.listed (GET st))
  /\ Permutation (joined st) (Spec.listed (GET st))
  /\ (NoDup (map t_id (therapists st)) ->
      NoDup (map p_id (patients st)) ->
      NoDup (map date (sessions st)) ->
      StronglySorted Spec.date_lt (Spec.listed (GET st)))
  /\ forall st',
       Permutation (sessions st) (sessions st') ->
       therapists st = therapists st' ->
       patients st = patients st' ->
       map d_date (Spec.listed (GET st')) = map d_date (Spec.listed (GET st)).
Proof.
  change (Spec.listed (GET st)) with (orderBy_date (joined st)).
  split; [apply orderBy_date_sorted|].
  split; [apply orderBy_date_perm|]. split.
  - intros Ht Hp Hd. apply sorted_nodup_strict; [apply orderBy_date_sorted|].
    apply (Permutation_NoDup
             (Permutation_map d_date (orderBy_date_perm (joined st)))).
    now rewrite joined_dates.
  - intros st' Hperm Ht Hp.
    change (Spec.listed (GET st')) with (orderBy_date (joined st')).
    apply sorted_perm_unique; try (apply sorted_dates, orderBy_date_sorted).
    apply Permutation_map.
    eapply perm_trans; [apply Permutation_sym, orderBy_date_perm|].
    eapply perm_trans; [|apply orderBy_date_perm].
    apply Permutation_sym. now apply joined_perm.
Qed.

(** The claim of C8 fails as worded: with two sessions at the same time the
    list is not strictly ascending. *)
Lemma list_not_strictly_ascending :
  ~ StronglySorted Spec.date_lt (Spec.listed (GET Fixtures.double_booked)).
Proof.
  change (Spec.listed (GET Fixtures.double_booked)) with
    [mkDetails 1 Fixtures.nov8_0900 "Scheduled" 1 1 (Some "Anna SLP")
       (Some "Ariel Underwood");
     mkDetails 2 Fixtures.nov8_0900 "Scheduled" 2 4 (Some "Becca OT")
       (Some "Elsa Frost")].
  intros H. inversion H as [|? ? _ Hall]. inversion Hall as [|? ? Hlt _].
  unfold Spec.date_lt in Hlt. simpl in Hlt. lia.
Qed.

(** The ordering example of the design document. *)
Example list_orders_three_sessions :
  map d_date (Spec.listed (GET Fixtures.three_sessions)) =
  [Fixtures.nov8_0900; Fixtures.nov8_1300; Fixtures.nov9_1100].
Proof. reflexivity. Qed.

(** C9, as the query has it.  Every session has a row in the list, with
    its own columns, whether or not its therapist and patient exist; the
    name of a reference that has no row is null ([None]). *)
Theorem list_keeps_unreferenced_session (st : Store) (s : Session) :
  In s (sessions st) ->
  exists row,
    In row (Spec.listed (GET st))
    /\ d_id row = id s /\ d_date row = date s /\ d_status row = status s
    /\ d_therapist_id row = therapist_id s
    /\ d_patient_id row = patient_id s
    /\ (~ Spec.therapist_exists st (therapist_id s) ->
        d_therapist_name row = None)
    /\ (~ Spec.patient_exists st (patient_id s) ->
        d_patient_name row = None).
Proof.
  intros Hs.
  destruct (joined_has_session_row st s Hs) as [ot [op [Hrow [Hot Hop]]]].
  exists (project (s, ot, op)).
  split.
  - change (Spec.listed (GET st)) with (orderBy_date (joined st)).
    now apply (Permutation_in _ (orderBy_date_perm (joined st))).
  - simpl. repeat split.
    + intros Hn. now rewrite (Hot Hn).
    + intros Hn. now rewrite (Hop Hn).
Qed.

(** The claim of C9 fails as worded: the session whose therapist is missing
    is listed with a null therapist name, not with the empty string. *)
Lemma list_missing_name_is_not_empty_string :
  ~ Spec.therapist_exists Fixtures.dangling_therapist 99
  /\ Spec.listed (GET Fixtures.dangling_therapist) =
       [mkDetails 1 Fixtures.nov8_0900 "Scheduled" 99 1 None
          (Some "Ariel Underwood")]
  /\ ~ exists row,
         In row (Spec.listed (GET Fixtures.dangling_therapist))
         /\ d_id row = 1 /\ d_therapist_name row = Some "".
Proof.
  split; [|split].
  - intros [t [Hin Hid]]. simpl in Hin.
    destruct Hin as [<-|[<-|[<-|[]]]]; discriminate.
  - reflexivity.
  - intros [row [Hin [_ Hname]]]. simpl in Hin.
    destruct Hin as [<-|[]]. discriminate.
Qed.

Section HandlerProps.

Variable is_datetime : string -> bool.
Variable Date_of : string -> Z.
Variable issue_message : Issue -> string.
Variable NODE_ENV : string.

Local Abbreviation PATCH := (Api.PATCH issue_message NODE_ENV).
Local Abbreviation POST := (Api.POST is_datetime Date_of issue_message NODE_ENV).

(** C3. A status update that asks for the status the session already has
    answers 200 with the no-change message and the row's id and status,
    leaves the store as it was, and so answers the same when sent again. *)
Theorem patch_same_status_is_noop
  (st : Store) (id_param : string) (sid : Z) (s : Session)
  (body : Json.t) (x : SessionStatus) :
  JsParseInt.parseInt id_param = Some sid ->
  0 < sid ->
  find (fun r => id r =? sid) (sessions st) = Some s ->
  status s = status_text x ->
  updateSessionSchema body = inr x ->
  let once := PATCH st id_param (Parsed body) in
  once =
    (mkResponse 200
       (BNoChange "Session already has the requested status"
          (sid, status_text x)) [], st)
  /\ PATCH (snd once) id_param (Parsed body) = once.
Proof.
  intros Hparse Hpos Hfind Hstatus Hbody.
  assert (Honce : PATCH st id_param (Parsed body) =
    (mkResponse 200
       (BNoChange "Session already has the requested status"
          (sid, status_text x)) [], st)).
  { unfold Api.PATCH. rewrite Hparse.
    destruct (Z.leb_spec sid 0) as [Hle|_]; [lia|].
    rewrite Hbody, (select_session_status_found _ _ _ Hfind). simpl.
    rewrite Hstatus, String.eqb_refl. reflexivity. }
  cbv zeta. rewrite Honce. simpl. split; [reflexivity | exact Honce].
Qed.

(** C6, as the handler has it.  A path id that [parseInt] reads as [NaN],
    zero or a negative number is answered 400 "Invalid session ID format"
    whatever the request body is, even an unreadable one, and nothing is
    written; "0" and "-3" are such ids.  [parseInt] reads the leading
    numeral only, so "12abc" is handled exactly as "12". *)
Theorem patch_rejects_non_positive_id
  (st : Store) (id_param : string) (request : JsonResult) :
  (match JsParseInt.parseInt id_param with
   | Some n => n <= 0
   | None => True
   end ->
   PATCH st id_param request =
     (mkResponse 400 (BError "Invalid session ID format") [], st))
  /\ PATCH st "0" request =
       (mkResponse 400 (BError "Invalid session ID format") [], st)
  /\ PATCH st "-3" request =
       (mkResponse 400 (BError "Invalid session ID format") [], st)
  /\ PATCH st "12abc" request = PATCH st "12" request.
Proof.
  repeat split; try reflexivity.
  unfold Api.PATCH.
  destruct (JsParseInt.parseInt id_param) as [n|]; [|reflexivity].
  intros Hn. destruct (Z.leb_spec n 0); [reflexivity | lia].
Qed.

(** *** Creating a session *)

Lemma number_int_positive_spec (v : option Json.t) :
  match number_int_positive v with
  | inr _ => Spec.valid_id v = true
  | inl ks => ks <> [] /\ Spec.valid_id v = false
  end.
Proof.
  destruct v as [[| |q| | |]|]; simpl; try (split; [discriminate|reflexivity]).
  destruct (isInteger q), (isPositive q); simpl;
    try reflexivity; split; (discriminate || reflexivity).
Qed.

Lemma string_datetime_spec (v : option Json.t) :
  match string_datetime is_datetime v with
  | inr _ => Spec.valid_date is_datetime v = true
  | inl ks => ks <> [] /\ Spec.valid_date is_datetime v = false
  end.
Proof.
  destruct v as [[| | |s| |]|]; simpl; try (split; [discriminate|reflexivity]).
  destruct (is_datetime s); simpl; [reflexivity|].
  split; [discriminate|reflexivity].
Qed.

Lemma issues_at_field {A : Type} (key : string) (r : list IssueKind + A)
  (f : string) :
  (exists i, In i (issues_at key r) /\ join_path (path i) = f) <->
  (f = key /\ exists ks, r = inl ks /\ ks <> []).
Proof.
  destruct r as [ks|a]; simpl.
  - split.
    + intros [i [Hi Hf]]. apply in_map_iff in Hi.
      destruct Hi as [k [<- Hk]]. simpl in Hf. split; [now symmetry|].
      exists ks. split; [reflexivity|]. intros ->. contradiction.
    + intros [-> [ks' [[= <-] Hne]]]. destruct ks as [|k ks]; [congruence|].
      exists (mkIssue [key] k). simpl. auto.
  - split.
    + intros [i [[] _]].
    + intros [_ [ks [Hks _]]]. discriminate.
Qed.

Lemma select_therapist_id_empty (st : Store) (tid : Z) :
  List.length (select_therapist_id st tid) = 0%nat <->
  ~ Spec.therapist_exists st tid.
Proof.
  unfold select_therapist_id, Spec.therapist_exists.
  destruct (filter (fun t => t_id t =? tid) (therapists st)) as [|t l] eqn:Hf.
  - simpl. split; [|reflexivity]. intros _ [t [Hin Hid]].
    assert (Ht : In t (filter (fun t => t_id t =? tid) (therapists st))).
    { apply filter_In. split; [assumption|]. now apply Z.eqb_eq. }
    rewrite Hf in Ht. contradiction.
  - simpl. split; [discriminate|]. intros Hn. exfalso. apply Hn.
    assert (Ht : In t (filter (fun t => t_id t =? tid) (therapists st))).
    { rewrite Hf. now left. }
    apply filter_In in Ht. destruct Ht as [Hin Hid].
    exists t. split; [assumption|]. now apply Z.eqb_eq.
Qed.

Lemma select_patient_id_empty (st : Store) (pid : Z) :
  List.length (select_patient_id st pid) = 0%nat <->
  ~ Spec.patient_exists st pid.
Proof.
  unfold select_patient_id, Spec.patient_exists.
  destruct (filter (fun p => p_id p =? pid) (patients st)) as [|p l] eqn:Hf.
  - simpl. split; [|reflexivity]. intros _ [p [Hin Hid]].
    assert (Hp : In p (filter (fun p => p_id p =? pid) (patients st))).
    { apply filter_In. split; [assumption|]. now apply Z.eqb_eq. }
    rewrite Hf in Hp. contradiction.
  - simpl. split; [discriminate|]. intros Hn. exfalso. apply Hn.
    assert (Hp : In p (filter (fun p => p_id p =? pid) (patients st))).
    { rewrite Hf. now left. }
    apply filter_In in Hp. destruct Hp as [Hin Hid].
    exists p. split; [assumption|]. now apply Z.eqb_eq.
Qed.

(** C4. A create request that passes the schema, whose two ids fit the
    integer columns, and whose therapist (or patient) id has no row in its
    table is answered 400 and inserts nothing; the message names the id:
    the therapist's when that one is unknown, else the patient's. *)
Theorem post_unknown_reference_in_range_is_400
  (query_error_text : Z -> Z -> string)
  (st : Store) (body : Json.t) (v : CreateSession) :
  createSessionSchema is_datetime body = inr v ->
  Int4.fits (cs_therapist_id v) = true ->
  Int4.fits (cs_patient_id v) = true ->
  ~ Spec.therapist_exists st (cs_therapist_id v)
  \/ ~ Spec.patient_exists st (cs_patient_id v) ->
  let r :=
    Int4.POST is_datetime Date_of issue_message NODE_ENV query_error_text
      st (Parsed body) in
  status_code (fst r) = 400
  /\ snd r = st
  /\ (~ Spec.therapist_exists st (cs_therapist_id v) ->
      Api.body (fst r) = BError "Invalid therapist ID")
  /\ (Spec.therapist_exists st (cs_therapist_id v) ->
      Api.body (fst r) = BError "Invalid patient ID").
Proof.
  intros Hs Hft Hfp Hmiss. cbv zeta. unfold Int4.POST.
  rewrite Hs, Hft, Hfp. unfold Api.POST. rewrite Hs.
  destruct (Nat.eqb_spec (List.length (select_therapist_id st (cs_therapist_id v))) 0)
    as [Ht|Ht].
  - simpl. split; [reflexivity|]. split; [reflexivity|].
    split; [reflexivity|].
    intros Hex. apply select_therapist_id_empty in Ht. contradiction.
  - assert (Hex : Spec.therapist_exists st (cs_therapist_id v)).
    { unfold Spec.therapist_exists, select_therapist_id in *.
      destruct (filter (fun t => t_id t =? cs_therapist_id v) (therapists st))
        as [|t l] eqn:Hf; [simpl in Ht; congruence|].
      assert (Hin : In t (filter (fun t => t_id t =? cs_therapist_id v)
                            (therapists st))) by (rewrite Hf; now left).
      apply filter_In in Hin. destruct Hin as [Hin Hid].
      exists t. split; [assumption|]. now apply Z.eqb_eq. }
    destruct Hmiss as [Hm|Hm]; [contradiction|].
    apply select_patient_id_empty in Hm. rewrite Hm. simpl.
    split; [reflexivity|]. split; [reflexivity|].
    split; [contradiction|reflexivity].
Qed.

Lemma details_entry_iff (issues : list Issue) (f : string) :
  (exists d,
     In d (map (fun err => mkDetail (join_path (path err)) (issue_message err))
             issues) /\ field d = f) <->
  (exists i, In i issues /\ join_path (path i) = f).
Proof.
  split.
  - intros [d [Hd Hf]]. apply in_map_iff in Hd. destruct Hd as [i [<- Hi]].
    now exists i.
  - intros [i [Hi Hf]].
    exists (mkDetail (join_path (path i)) (issue_message i)).
    split; [|exact Hf]. apply in_map_iff. now exists i.
Qed.

Lemma create_issues_field {A B C : Type} (t : list IssueKind + A)
  (p : list IssueKind + B) (d : list IssueKind + C) (f : string) :
  (exists i,
     In i (issues_at "therapist_id" t ++ issues_at "patient_id" p
           ++ issues_at "date" d)%list /\ join_path (path i) = f) <->
  (f = "therapist_id" /\ exists ks, t = inl ks /\ ks <> [])
  \/ (f = "patient_id" /\ exists ks, p = inl ks /\ ks <> [])
  \/ (f = "date" /\ exists ks, d = inl ks /\ ks <> []).
Proof.
  rewrite <- !issues_at_field. split.
  - intros [i [Hi Hf]]. apply in_app_or in Hi. destruct Hi as [Hi|Hi].
    + left. now exists i.
    + apply in_app_or in Hi. destruct Hi as [Hi|Hi].
      * right. left. now exists i.
      * right. right. now exists i.
  - intros [[i [Hi Hf]]|[[i [Hi Hf]]|[i [Hi Hf]]]]; exists i; split; auto;
      rewrite !in_app_iff; auto.
Qed.

(** C5. A create request whose body is an object with at least one of
    [therapist_id], [patient_id], [date] missing or invalid is answered 400
    "Validation failed", nothing is inserted, and the details name exactly
    the failing fields: every failing field has an entry, whichever other
    fields fail too. *)
Theorem post_reports_every_failing_field
  (st : Store) (fields : list (string * Json.t)) :
  (exists f, In f Spec.create_fields
             /\ Spec.field_ok is_datetime (JObj fields) f = false) ->
  exists details,
    POST st (Parsed (JObj fields)) =
      (mkResponse 400 (BValidation "Validation failed" details) [], st)
    /\ forall f, In f Spec.create_fields ->
         (Spec.field_ok is_datetime (JObj fields) f = false <->
          exists d, In d details /\ field d = f).
Proof.
  intros Hfail. unfold Api.POST, createSessionSchema.
  pose proof (number_int_positive_spec (get "therapist_id" (JObj fields))) as Ht.
  pose proof (number_int_positive_spec (get "patient_id" (JObj fields))) as Hp.
  pose proof (string_datetime_spec (get "date" (JObj fields))) as Hd.
  assert (Hok : forall f, In f Spec.create_fields ->
            Spec.field_ok is_datetime (JObj fields) f =
            if String.eqb f "date"
            then Spec.valid_date is_datetime (get "date" (JObj fields))
            else if String.eqb f "patient_id"
                 then Spec.valid_id (get "patient_id" (JObj fields))
                 else Spec.valid_id (get "therapist_id" (JObj fields))).
  { intros f [<-|[<-|[<-|[]]]]; reflexivity. }
  set (t := number_int_positive (get "therapist_id" (JObj fields))) in *.
  set (p := number_int_positive (get "patient_id" (JObj fields))) in *.
  set (d := string_datetime is_datetime (get "date" (JObj fields))) in *.
  assert (Hissues :
    exists issues,
      match t, p, d with
      | inr tv, inr pv, inr dv => inr (mkCreateSession tv pv dv)
      | _, _, _ =>
          inl (issues_at "therapist_id" t ++ issues_at "patient_id" p
               ++ issues_at "date" d)%list
      end = inl issues
      /\ issues = (issues_at "therapist_id" t ++ issues_at "patient_id" p
                   ++ issues_at "date" d)%list).
  { destruct t as [kt|tv], p as [kp|pv], d as [kd|dv];
      try (eexists; split; reflexivity).
    exfalso. destruct Hfail as [f [Hin Hf]]. rewrite (Hok f Hin) in Hf.
    destruct Hin as [<-|[<-|[<-|[]]]]; simpl in Hf, Ht, Hp, Hd; congruence. }
  destruct Hissues as [issues [-> Hissues]].
  eexists. split; [reflexivity|].
  intros f Hin. rewrite details_entry_iff, Hissues, create_issues_field.
  rewrite (Hok f Hin).
  destruct Hin as [<-|[<-|[<-|[]]]]; simpl in *; split.
  - intros Hv. left. split; [reflexivity|].
    destruct t as [ks|tv]; [|congruence]. exists ks. now split.
  - intros [[_ [ks [-> _]]]|[[[=] _]|[[=] _]]]. apply Ht.
  - intros Hv. right. left. split; [reflexivity|].
    destruct p as [ks|pv]; [|congruence]. exists ks. now split.
  - intros [[[=] _]|[[_ [ks [-> _]]]|[[=] _]]]. apply Hp.
  - intros Hv. right. right. split; [reflexivity|].
    destruct d as [ks|dv]; [|congruence]. exists ks. now split.
  - intros [[[=] _]|[[[=] _]|[_ [ks [-> _]]]]]. apply Hd.
Qed.


End HandlerProps.

(** *** The theorems at sample requests *)

Lemma patch_same_status_is_noop_witness :
  let once :=
    Api.PATCH Fixtures.sample_message Fixtures.production
      Fixtures.three_sessions "3" (Parsed Fixtures.completed_body) in
  once =
    (mkResponse 200
       (BNoChange "Session already has the requested status"
          (3, "Completed")) [], Fixtures.three_sessions)
  /\ Api.PATCH Fixtures.sample_message Fixtures.production (snd once) "3"
       (Parsed Fixtures.completed_body) = once.
Proof.
  apply (patch_same_status_is_noop Fixtures.sample_message
           Fixtures.production Fixtures.three_sessions "3" 3
           (mkSession 3 1 3 Fixtures.nov8_1300 "Completed")
           Fixtures.completed_body Completed); reflexivity.
Defined.

Lemma patch_rejects_non_positive_id_witness :
  Api.PATCH Fixtures.sample_message Fixtures.production
    Fixtures.three_sessions "abc" (Rejected "Unexpected end of JSON input") =
  (mkResponse 400 (BError "Invalid session ID format") [],
   Fixtures.three_sessions).
Proof.
  apply (proj1 (patch_rejects_non_positive_id Fixtures.sample_message
                  Fixtures.production Fixtures.three_sessions "abc"
                  (Rejected "Unexpected end of JSON input"))).
  simpl. exact I.
Defined.

(** The claim of C6 fails as worded: "12abc" is not a positive integer, yet
    the request is carried out on session 12. *)
Lemma patch_accepts_numeric_prefix :
  Spec.positive_integer_text "12abc" = false
  /\ fst (Api.PATCH Fixtures.sample_message Fixtures.production
            Fixtures.twelve_sessions "12abc" (Parsed Fixtures.completed_body)) =
     mkResponse 200
       (BUpdated "Session updated successfully"
          (mkSession 12 1 1 (Fixtures.nov8_0900 + 12) "Completed"))
       [("Cache-Control", "no-cache")].
Proof. split; reflexivity. Qed.

Lemma post_unknown_reference_in_range_is_400_witness :
  status_code
    (fst (Int4.POST Fixtures.utc_seconds Fixtures.sample_Date_of
            Fixtures.sample_message Fixtures.production
            RangeSamples.range_error_text Fixtures.three_sessions
            (Parsed (JObj Fixtures.unknown_therapist_fields)))) = 400.
Proof.
  assert (Hmiss : ~ Spec.therapist_exists Fixtures.three_sessions 99).
  { intros [t [Hin Hid]]. simpl in Hin, Hid.
    destruct Hin as [<-|[<-|[<-|[]]]]; discriminate. }
  exact (proj1 (post_unknown_reference_in_range_is_400 Fixtures.utc_seconds
                  Fixtures.sample_Date_of Fixtures.sample_message
                  Fixtures.production RangeSamples.range_error_text
                  Fixtures.three_sessions
                  (JObj Fixtures.unknown_therapist_fields)
                  (mkCreateSession 99 1 "2030-01-01T10:00:00Z")
                  eq_refl eq_refl eq_refl (or_introl Hmiss))).
Defined.

(** The therapist id 3000000000 passes the schema and is the id of no
    therapist, and the answer is 500: the existence query fails on the
    integer column, and nothing is inserted. *)
Lemma post_unknown_reference_out_of_range_is_500 :
  createSessionSchema Fixtures.utc_seconds
    (JObj RangeSamples.out_of_range_fields)
  = inr (mkCreateSession 3000000000 1 "2030-01-01T10:00:00Z")
  /\ ~ Spec.therapist_exists Fixtures.three_sessions 3000000000
  /\ Int4.POST Fixtures.utc_seconds Fixtures.sample_Date_of
       Fixtures.sample_message Fixtures.production
       RangeSamples.range_error_text Fixtures.three_sessions
       (Parsed (JObj RangeSamples.out_of_range_fields))
     = (mkResponse 500
          (BErrorMessage "Failed to create session" "Internal server error")
          [],
        Fixtures.three_sessions)
  /\ status_code
       (fst (Int4.POST Fixtures.utc_seconds Fixtures.sample_Date_of
               Fixtures.sample_message Fixtures.production
               RangeSamples.range_error_text Fixtures.three_sessions
               (Parsed (JObj RangeSamples.out_of_range_fields)))) <> 400.
Proof.
  split; [reflexivity|]. split.
  - intros [t [Hin Hid]]. simpl in Hin, Hid.
    destruct Hin as [<-|[<-|[<-|[]]]]; discriminate.
  - split; [reflexivity|]. discriminate.
Qed.

Lemma post_reports_every_failing_field_witness :
  exists details,
    Api.POST Fixtures.utc_seconds Fixtures.sample_Date_of
      Fixtures.sample_message Fixtures.production Fixtures.three_sessions
      (Parsed (JObj [("therapist_id", JNum (1 # 1))])) =
      (mkResponse 400 (BValidation "Validation failed" details) [],
       Fixtures.three_sessions)
    /\ forall f, In f Spec.create_fields ->
         (Spec.field_ok Fixtures.utc_seconds
            (JObj [("therapist_id", JNum (1 # 1))]) f = false <->
          exists d, In d details /\ field d = f).
Proof.
  apply (post_reports_every_failing_field Fixtures.utc_seconds
           Fixtures.sample_Date_of Fixtures.sample_message
           Fixtures.production Fixtures.three_sessions
           [("therapist_id", JNum (1 # 1))]).
  exists "date". split; [simpl; tauto | reflexivity].
Defined.


Lemma list_is_ascending_by_date_witness :
  StronglySorted Spec.date_lt (Spec.listed (GET Fixtures.three_sessions)).
Proof.
  apply (proj1 (proj2 (proj2
           (list_is_ascending_by_date Fixtures.three_sessions)))).
  - simpl. repeat constructor; simpl; intuition discriminate.
  - simpl. repeat constructor; simpl; intuition discriminate.
  - simpl. repeat constructor; simpl; intuition discriminate.
Defined.

Lemma list_keeps_unreferenced_session_witness :
  exists row,
    In row (Spec.listed (GET Fixtures.dangling_therapist))
    /\ d_id row = 1 /\ d_date row = Fixtures.nov8_0900
    /\ d_status row = "Scheduled"
    /\ d_therapist_id row = 99
    /\ d_patient_id row = 1
    /\ (~ Spec.therapist_exists Fixtures.dangling_therapist 99 ->
        d_therapist_name row = None)
    /\ (~ Spec.patient_exists Fixtures.dangling_therapist 1 ->
        d_patient_name row = None).
Proof.
  apply (list_keeps_unreferenced_session Fixtures.dangling_therapist
           (mkSession 1 99 1 Fixtures.nov8_0900 "Scheduled")).
  simpl. left. reflexivity.
Defined.

End ApiProps.

(* ================================================================== *)
(** ** Properties of the client *)

Module ClientProps.

Import Json Client.

Lemma with_status_id (x : SessionWithDetails) (s : string) :
  id (with_status x s) = id x.
Proof. reflexivity. Qed.

Lemma set_status_ids (sid : Z) (s : string) (l : list SessionWithDetails) :
  map id (map (fun x => if id x =? sid then with_status x s else x) l) =
  map id l.
Proof.
  rewrite map_map. apply map_ext. intros x.
  now destruct (id x =? sid).
Qed.

Lemma set_status_sets (sid : Z) (s : string) (l : list SessionWithDetails)
  (x : SessionWithDetails) :
  In x (map (fun x => if id x =? sid then with_status x s else x) l) ->
  id x = sid -> status x = s.
Proof.
  intros Hin Hid. apply in_map_iff in Hin. destruct Hin as [y [<- Hy]].
  destruct (Z.eqb_spec (id y) sid) as [_|Hne]; [reflexivity|].
  contradiction.
Qed.

Lemma set_status_others (sid : Z) (s : string) (l : list SessionWithDetails) :
  filter (fun x => negb (id x =? sid))
    (map (fun x => if id x =? sid then with_status x s else x) l) =
  filter (fun x => negb (id x =? sid)) l.
Proof.
  induction l as [|x l IH]; [reflexivity|]. simpl.
  destruct (id x =? sid) eqn:Hx; simpl; rewrite Hx; simpl; now rewrite IH.
Qed.

Lemma set_status_undo (sid : Z) (s0 s1 : string)
  (l : list SessionWithDetails) :
  (forall x, In x l -> id x = sid -> status x = s0) ->
  map (fun x => if id x =? sid then with_status x s0 else x)
    (map (fun x => if id x =? sid then with_status x s1 else x) l) = l.
Proof.
  intros H. rewrite map_map. rewrite <- (map_id l) at 2.
  apply map_ext_in. intros x Hx.
  destruct (Z.eqb_spec (id x) sid) as [Heq|Hne].
  - simpl. rewrite (proj2 (Z.eqb_eq _ _) Heq).
    specialize (H x Hx Heq). destruct x. simpl in *. now subst.
  - now rewrite (proj2 (Z.eqb_neq _ _) Hne).
Qed.

Section PageProps.

Variable NODE_ENV : string.
Variable js_String : Json.t -> string.

Local Abbreviation apiCall := (Client.apiCall NODE_ENV js_String).

(** Each of the three kinds of failure makes [apiCall] throw. *)
Lemma apiCall_throws (r : FetchResult Json.t) :
  Spec.update_failed r -> exists e, apiCall r = inl e.
Proof.
  intros [reason|response Hok|response e He]; unfold Client.apiCall.
  - eauto.
  - destruct (_ && _); [eauto|].
    destruct (json response) as [e|data]; [eauto|].
    rewrite Hok. simpl. destruct data; eauto.
  - destruct (_ && _); [eauto|]. rewrite He. eauto.
Qed.

(** C1. A session that is "Scheduled" in the rendered list is marked
    completed and the request fails (rejected, non-success status, or a
    body that is not JSON).  The optimistic step shows it "Completed";
    once the failure has settled, whatever else happened to the page in
    between, every row with that id reads "Scheduled" again, no row was
    added or dropped, and the pending marker is cleared.  With nothing in
    between the list is the one before the click. *)
Theorem rollback_restores_scheduled
  (props_sessions : list SessionWithDetails) (sid : Z)
  (s : SessionWithDetails) (app : App) (r : FetchResult Json.t) :
  find (fun x => id x =? sid) props_sessions = Some s ->
  status s = "Scheduled" ->
  Spec.update_failed r ->
  let started := handleMarkCompleted_begin props_sessions sid app in
  (forall x, In x (sessions (home (fst started))) -> id x = sid ->
             status x = "Completed")
  /\ (forall app_mid : App,
        let settled :=
          handleMarkCompleted_settle (snd started) (apiCall r) app_mid in
        map id (sessions (home settled)) = map id (sessions (home app_mid))
        /\ (forall x, In x (sessions (home settled)) -> id x = sid ->
                      status x = "Scheduled")
        /\ updatingSessionId settled = None)
  /\ ((forall x, In x (sessions (home app)) -> id x = sid ->
                 status x = "Scheduled") ->
      sessions
        (home (handleMarkCompleted_settle (snd started) (apiCall r)
                 (fst started))) = sessions (home app)).
Proof.
  intros Hfind Hstatus Hfail.
  destruct (apiCall_throws r Hfail) as [e He].
  unfold handleMarkCompleted_begin, handleMarkCompleted_settle.
  rewrite Hfind, He. cbn [fst snd option_map pu_originalStatus pu_sessionId].
  rewrite Hstatus. cbn [truthy String.eqb Ascii.eqb Bool.eqb negb].
  cbn [home sessions handleSessionUpdate handleSessionUpdateError
       updatingSessionId].
  split; [|split].
  - intros x Hin Hid. exact (set_status_sets sid "Completed" _ x Hin Hid).
  - intros app_mid. split; [apply set_status_ids|]. split; [|reflexivity].
    intros x Hin Hid. exact (set_status_sets sid "Scheduled" _ x Hin Hid).
  - intros Horig. now apply set_status_undo.
Qed.

End PageProps.

(** C2, as the table has it.  The table keeps one pending id, not one per
    row: when an update is started for [a], [a] is the only row marked
    pending; when any update settles, with success or failure, no row is
    marked pending.  Starting or settling an update leaves every row with
    another id as it was. *)
Theorem pending_marker_is_single_slot
  (props_sessions : list SessionWithDetails) (a b : Z) (app : App)
  (pending : PendingUpdate) (result : Thrown + Json.t) :
  isUpdating (fst (handleMarkCompleted_begin props_sessions a app)) b
    = (a =? b)
  /\ isUpdating (handleMarkCompleted_settle pending result app) b = false
  /\ filter (fun x => negb (id x =? a))
       (sessions (home (fst (handleMarkCompleted_begin props_sessions a app))))
     = filter (fun x => negb (id x =? a)) (sessions (home app))
  /\ filter (fun x => negb (id x =? pu_sessionId pending))
       (sessions (home (handleMarkCompleted_settle pending result app)))
     = filter (fun x => negb (id x =? pu_sessionId pending))
         (sessions (home app)).
Proof.
  split; [reflexivity|]. split; [reflexivity|]. split.
  - apply set_status_others.
  - unfold handleMarkCompleted_settle. cbn [home].
    destruct result as [e|data]; [|reflexivity].
    destruct (pu_originalStatus pending) as [o|]; [|reflexivity].
    destruct (truthy (Some o)); [|reflexivity].
    apply set_status_others.
Qed.

(** The claim of C2 fails as worded.  Session 3 is marked completed, and
    while its request is in flight session 1 is marked completed too: row 3
    loses its pending marker at once, the two rows are never marked
    together, and when the request of session 1 settles no row is marked
    although the request of session 3 is still in flight. *)
Lemma pending_marker_not_per_row :
  let first := handleMarkCompleted_begin Fixtures.page_rows 3
                 Fixtures.loaded_page in
  let second := handleMarkCompleted_begin
                  (sessions (home (fst first))) 1 (fst first) in
  let settled := handleMarkCompleted_settle (snd second)
                   (inr (JObj [])) (fst second) in
  isUpdating (fst first) 3 = true
  /\ isUpdating (fst second) 3 = false
  /\ isUpdating (fst second) 1 = true
  /\ isUpdating settled 3 = false.
Proof. repeat split. Qed.

(** C10. A successful list response whose body is not an array is treated
    as a failure: whatever the page holds when the response arrives, its
    sessions stay as they were, the error is set to "Invalid response
    format", loading ends, and the page shows the error panel with its
    retry control. *)
Theorem fetch_non_array_is_failure
  (st : HomeState) (response : FetchResponse ListData) (data : ListData) :
  ok response = true ->
  json response = inr data ->
  Array_isArray data = false ->
  let st' := fetchSessions_settle (Resolved response) st in
  sessions st' = sessions st
  /\ error st' = Some "Invalid response format"
  /\ loading st' = false
  /\ Home_view st' = ErrorPanel "Invalid response format" FetchSessions.
Proof.
  intros Hok Hjson Harr.
  unfold fetchSessions_settle, fetchSessions_try.
  rewrite Hok, Hjson, Harr. simpl. repeat split.
Qed.

(** *** The theorems at sample inputs *)

Lemma rollback_restores_scheduled_witness :
  sessions
    (home
       (handleMarkCompleted_settle
          (snd (handleMarkCompleted_begin Fixtures.page_rows 1
                  Fixtures.loaded_page))
          (Client.apiCall Fixtures.production Fixtures.sample_js_String
             Fixtures.server_error)
          (fst (handleMarkCompleted_begin Fixtures.page_rows 1
                  Fixtures.loaded_page))))
  = Fixtures.page_rows.
Proof.
  apply (proj2 (proj2
    (rollback_restores_scheduled Fixtures.production
       Fixtures.sample_js_String Fixtures.page_rows 1
       (mkRow 1 1 1 "2025-11-15T09:00:00.000Z" "Scheduled"
          (Some "Dr. Sarah Johnson") (Some "John Smith"))
       Fixtures.loaded_page Fixtures.server_error
       eq_refl eq_refl
       (Spec.non_success_status Fixtures.server_error_response eq_refl)))).
  intros x Hin Hid. simpl in Hin.
  destruct Hin as [<-|[<-|[<-|[]]]]; simpl in Hid; (reflexivity || lia).
Defined.

Lemma fetch_non_array_is_failure_witness :
  Home_view
    (fetchSessions_settle (Resolved Fixtures.null_list)
       (fetchSessions_begin (home Fixtures.loaded_page)))
  = ErrorPanel "Invalid response format" FetchSessions.
Proof.
  apply (fetch_non_array_is_failure
           (fetchSessions_begin (home Fixtures.loaded_page))
           Fixtures.null_list DNull eq_refl eq_refl eq_refl).
Defined.

End ClientProps.

Example parseInt_12abc : JsParseInt.parseInt "12abc" = Some 12.
Proof. reflexivity. Qed.

Example parseInt_neg3 : JsParseInt.parseInt "-3" = Some (-3).
Proof. reflexivity. Qed.

Example parseInt_word : JsParseInt.parseInt "not-a-number" = None.
Proof. reflexivity. Qed.

Example parseInt_hex : JsParseInt.parseInt "  0x1f" = Some 31.
Proof. reflexivity. Qed.

(** A status update for an id that no session has is answered 404 and
    changes nothing. *)
Example patch_unknown_session_is_404 :
  Api.PATCH Fixtures.sample_message Fixtures.production
    Fixtures.three_sessions "999999" (Api.Parsed Fixtures.completed_body) =
  (Api.mkResponse 404 (Api.BError "Session not found") [],
   Fixtures.three_sessions).
Proof. reflexivity. Qed.

(** An empty object is reported with one entry for each of the three
    fields. *)
Example post_empty_object_details :
  fst (Api.POST Fixtures.utc_seconds Fixtures.sample_Date_of
         Fixtures.sample_message Fixtures.production Fixtures.three_sessions
         (Api.Parsed (Json.JObj []))) =
  Api.mkResponse 400
    (Api.BValidation "Validation failed"
       [Api.mkDetail "therapist_id" "Required";
        Api.mkDetail "patient_id" "Required";
        Api.mkDetail "date" "Required"]) [].
Proof. reflexivity. Qed.

(** A request body that is not JSON is answered 500 by the create
    handler. *)
Example post_unreadable_body_is_500 :
  fst (Api.POST Fixtures.utc_seconds Fixtures.sample_Date_of
         Fixtures.sample_message Fixtures.production Fixtures.three_sessions
         (Api.Rejected "Unexpected token")) =
  Api.mkResponse 500
    (Api.BErrorMessage "Failed to create session" "Internal server error") [].
Proof. reflexivity. Qed.

(* ================================================================== *)
(** ** Further properties of the route handlers *)

Module ApiMore.

Import Json Zod Db Api Invariants.

Lemma update_rows (st : Store) (sid : Z) (stat : string) :
  snd (update_session_status st sid stat) =
  mkStore (therapists st) (patients st)
    (map (fun s => if id s =? sid then set_status stat s else s) (sessions st))
    (sessions_id_seq st).
Proof. reflexivity. Qed.

Lemma map_set_status_none (sid : Z) (stat : string) (l : list Session) :
  (forall s, In s l -> id s = sid -> status s = stat) ->
  map (fun s => if id s =? sid then set_status stat s else s) l = l.
Proof.
  intros H. rewrite <- (map_id l) at 2. apply map_ext_in. intros s Hs.
  destruct (Z.eqb_spec (id s) sid) as [Heq|_]; [|reflexivity].
  specialize (H s Hs Heq). destruct s. unfold set_status. simpl in *.
  now subst.
Qed.

Lemma select_session_status_none (st : Store) (sid : Z) :
  (forall s, In s (sessions st) -> id s <> sid) ->
  select_session_status st sid = [].
Proof.
  intros H. unfold select_session_status.
  rewrite ApiProps.filter_none; [reflexivity|].
  intros s Hs. apply Z.eqb_neq. now apply H.
Qed.

Lemma store_eta (st : Store) :
  mkStore (therapists st) (patients st) (sessions st) (sessions_id_seq st)
  = st.
Proof. now destruct st. Qed.

Section HandlerFacts.

Variable is_datetime : string -> bool.
Variable Date_of : string -> Z.
Variable issue_message : Issue -> string.
Variable NODE_ENV : string.

Local Abbreviation PATCH := (Api.PATCH issue_message NODE_ENV).
Local Abbreviation POST := (Api.POST is_datetime Date_of issue_message NODE_ENV).

(** X1. A status update whose id is positive and within the range of the
    integer key column, and whose body is valid, for an id that no stored
    session has, is answered 404 "Session not found" and nothing is created
    or altered. *)
Theorem patch_unknown_id_is_404
  (st : Store) (id_param : string) (sid : Z) (body : Json.t)
  (x : SessionStatus) :
  JsParseInt.parseInt id_param = Some sid ->
  0 < sid ->
  sid <= Int4.max ->
  updateSessionSchema body = inr x ->
  (forall s, In s (sessions st) -> id s <> sid) ->
  PATCH st id_param (Parsed body) =
    (mkResponse 404 (BError "Session not found") [], st).
Proof.
  intros Hp Hpos Hmax Hb Hno. unfold Api.PATCH. rewrite Hp.
  destruct (Z.leb_spec sid 0); [lia|].
  now rewrite Hb, (select_session_status_none _ _ Hno).
Qed.

Lemma patch_updates
  (st : Store) (id_param : string) (sid : Z) (s : Session)
  (body : Json.t) (x : SessionStatus) :
  JsParseInt.parseInt id_param = Some sid ->
  0 < sid ->
  find (fun r => id r =? sid) (sessions st) = Some s ->
  status s <> status_text x ->
  updateSessionSchema body = inr x ->
  PATCH st id_param (Parsed body) =
    (mkResponse 200
       (BUpdated "Session updated successfully"
          (set_status (status_text x) s))
       [("Cache-Control", "no-cache")],
     mkStore (therapists st) (patients st)
       (map (fun r => if id r =? sid then set_status (status_text x) r else r)
          (sessions st))
       (sessions_id_seq st)).
Proof.
  intros Hp Hpos Hf Hne Hb. unfold Api.PATCH. rewrite Hp.
  destruct (Z.leb_spec sid 0); [lia|].
  rewrite Hb, (ApiProps.select_session_status_found _ _ _ Hf).
  cbn [snd]. destruct (String.eqb_spec (status s) (status_text x));
    [contradiction|].
  unfold update_session_status.
  destruct (ApiProps.find_filter_head _ _ _ Hf) as [rest ->].
  reflexivity.
Qed.

(** X2. A status update that asks for another status than the session has
    is answered 200 "Session updated successfully" with the row, its
    status replaced and its other columns kept; in the store the rows with
    that id get the new status and nothing else changes; the same request
    sent again is then the no-change answer and writes nothing. *)
Theorem patch_changes_status
  (st : Store) (id_param : string) (sid : Z) (s : Session)
  (body : Json.t) (x : SessionStatus) :
  JsParseInt.parseInt id_param = Some sid ->
  0 < sid ->
  find (fun r => id r =? sid) (sessions st) = Some s ->
  status s <> status_text x ->
  updateSessionSchema body = inr x ->
  let st' :=
    mkStore (therapists st) (patients st)
      (map (fun r => if id r =? sid then set_status (status_text x) r else r)
         (sessions st))
      (sessions_id_seq st) in
  PATCH st id_param (Parsed body) =
    (mkResponse 200
       (BUpdated "Session updated successfully"
          (set_status (status_text x) s))
       [("Cache-Control", "no-cache")], st')
  /\ PATCH st' id_param (Parsed body) =
       (mkResponse 200
          (BNoChange "Session already has the requested status"
             (sid, status_text x)) [], st').
Proof.
  intros Hp Hpos Hf Hne Hb. cbv zeta. split.
  - now apply patch_updates.
  - unfold Api.PATCH. rewrite Hp.
    destruct (Z.leb_spec sid 0); [lia|]. rewrite Hb.
    assert (Hf' : find (fun r => id r =? sid)
                    (map (fun r => if id r =? sid
                                   then set_status (status_text x) r else r)
                       (sessions st)) = Some (set_status (status_text x) s)).
    { clear -Hf. induction (sessions st) as [|r l IH]; [discriminate|].
      simpl in *. destruct (id r =? sid) eqn:Hr.
      - injection Hf as <-. simpl. now rewrite Hr.
      - rewrite Hr. now apply IH. }
    rewrite (ApiProps.select_session_status_found
               (mkStore (therapists st) (patients st)
                  (map (fun r => if id r =? sid
                                 then set_status (status_text x) r else r)
                     (sessions st))
                  (sessions_id_seq st)) sid _ Hf').
    cbn [snd set_status status]. now rewrite String.eqb_refl.
Qed.

(** X3. Whatever the request, a status update never adds or removes a
    session, never touches a session's id, therapist, patient or date, nor
    the other two tables; and it writes only when it answers with the
    updated row. *)
Theorem patch_preserves_rows
  (st : Store) (id_param : string) (request : JsonResult) :
  let r := PATCH st id_param request in
  therapists (snd r) = therapists st
  /\ patients (snd r) = patients st
  /\ sessions_id_seq (snd r) = sessions_id_seq st
  /\ map (fun s => (id s, therapist_id s, patient_id s, date s))
       (sessions (snd r))
     = map (fun s => (id s, therapist_id s, patient_id s, date s))
         (sessions st)
  /\ (snd r = st
      \/ exists row, Api.body (fst r) =
                       BUpdated "Session updated successfully" row).
Proof.
  cbv zeta. unfold Api.PATCH.
  destruct (JsParseInt.parseInt id_param) as [sid|];
    [|simpl; repeat split; auto].
  destruct (sid <=? 0); [simpl; repeat split; auto|].
  destruct request as [body|e]; [|simpl; repeat split; auto].
  destruct (updateSessionSchema body) as [issues|x];
    [simpl; repeat split; auto|].
  unfold select_session_status, update_session_status.
  destruct (filter (fun s => id s =? sid) (sessions st)) as [|u us];
    [simpl; repeat split; auto|].
  cbn [map firstn snd].
  destruct (String.eqb (status u) (status_text x));
    [simpl; repeat split; auto|].
  assert (Hrows :
    map (fun s => (id s, therapist_id s, patient_id s, date s))
      (map (fun s => if id s =? sid then set_status (status_text x) s else s)
         (sessions st))
    = map (fun s => (id s, therapist_id s, patient_id s, date s))
        (sessions st)).
  { rewrite map_map. apply map_ext. intros s. now destruct (id s =? sid). }
  simpl. repeat split; auto. right. eexists. reflexivity.
Qed.

Lemma post_store_cases (st : Store) (request : JsonResult) :
  let r := POST st request in
  ((status_code (fst r) = 201
    /\ exists tid pid d,
         snd r =
           mkStore (therapists st) (patients st)
             (sessions st ++
              [mkSession (sessions_id_seq st) tid pid d "Scheduled"])
             (sessions_id_seq st + 1))
   \/ ((status_code (fst r) = 400 \/ status_code (fst r) = 500)
       /\ snd r = st))
  /\ (status_code (fst r) = 500 <-> exists e, request = Rejected e).
Proof.
  cbv zeta. unfold Api.POST.
  destruct request as [body|e].
  2: { simpl. split; [right; auto|]. split; eauto. }
  destruct (createSessionSchema is_datetime body) as [issues|v].
  { simpl. split; [right; auto|]. split; [discriminate|].
    intros [e He]. discriminate. }
  destruct (List.length (select_therapist_id st (cs_therapist_id v)) =? 0)%nat.
  { simpl. split; [right; auto|]. split; [discriminate|].
    intros [e He]. discriminate. }
  destruct (List.length (select_patient_id st (cs_patient_id v)) =? 0)%nat.
  { simpl. split; [right; auto|]. split; [discriminate|].
    intros [e He]. discriminate. }
  simpl. split.
  - left. split; [reflexivity|]. eauto.
  - split; [discriminate|]. intros [e He]. discriminate.
Qed.

(** X4. Whatever the request, a creation answers 201, 400 or 500.  With
    201 exactly one row was appended: the validated ids and date, status
    "Scheduled", the next value of the key as id.  With 400 the store is as
    it was.  A body that cannot be read, and a validated id that does not fit
    the integer column, are answered 500 with the store as it was. *)
Theorem post_store_effect (query_error_text : Z -> Z -> string)
  (st : Store) (request : JsonResult) :
  let r :=
    Int4.POST is_datetime Date_of issue_message NODE_ENV query_error_text
      st request in
  (status_code (fst r) = 201 \/ status_code (fst r) = 400
   \/ status_code (fst r) = 500)
  /\ (status_code (fst r) = 201 ->
      exists body v,
        request = Parsed body
        /\ createSessionSchema is_datetime body = inr v
        /\ snd r =
           mkStore (therapists st) (patients st)
             (sessions st ++
              [mkSession (sessions_id_seq st) (cs_therapist_id v)
                 (cs_patient_id v) (Date_of (cs_date v)) "Scheduled"])
             (sessions_id_seq st + 1))
  /\ (status_code (fst r) = 400 -> snd r = st)
  /\ ((exists e, request = Rejected e) ->
      status_code (fst r) = 500 /\ snd r = st)
  /\ (forall body v,
        request = Parsed body ->
        createSessionSchema is_datetime body = inr v ->
        Int4.fits (cs_therapist_id v) && Int4.fits (cs_patient_id v) = false ->
        status_code (fst r) = 500 /\ snd r = st).
Proof.
  cbv zeta. unfold Int4.POST.
  destruct request as [body|e].
  2: { simpl. split; [auto|]. split; [discriminate|]. split; [discriminate|].
       split; [auto|]. intros body v Hreq. discriminate. }
  destruct (createSessionSchema is_datetime body) as [issues|v] eqn:Hs.
  { unfold Api.POST. rewrite Hs. simpl.
    split; [auto|]. split; [discriminate|]. split; [reflexivity|].
    split; [intros [e He]; discriminate|].
    intros body' v' [= <-] Hv. congruence. }
  destruct (Int4.fits (cs_therapist_id v)) eqn:Hft.
  2: { simpl. split; [auto|]. split; [discriminate|]. split; [discriminate|].
       split; [intros [e He]; discriminate|]. auto. }
  destruct (Int4.fits (cs_patient_id v)) eqn:Hfp.
  2: { simpl. split; [auto|]. split; [discriminate|]. split; [discriminate|].
       split; [intros [e He]; discriminate|]. auto. }
  assert (Hfit : forall body' v',
            Parsed body = Parsed body' ->
            createSessionSchema is_datetime body' = inr v' ->
            Int4.fits (cs_therapist_id v') && Int4.fits (cs_patient_id v')
            = false -> False).
  { intros body' v' [= <-] Hv. rewrite Hs in Hv. injection Hv as <-.
    rewrite Hft, Hfp. discriminate. }
  unfold Api.POST. rewrite Hs.
  destruct (List.length (select_therapist_id st (cs_therapist_id v)) =? 0)%nat.
  { simpl. split; [auto|]. split; [discriminate|]. split; [reflexivity|].
    split; [intros [e He]; discriminate|].
    intros body' v' H1 H2 H3. destruct (Hfit body' v' H1 H2 H3). }
  destruct (List.length (select_patient_id st (cs_patient_id v)) =? 0)%nat.
  { simpl. split; [auto|]. split; [discriminate|]. split; [reflexivity|].
    split; [intros [e He]; discriminate|].
    intros body' v' H1 H2 H3. destruct (Hfit body' v' H1 H2 H3). }
  simpl. split; [auto|]. split.
  { intros _. exists body, v. auto. }
  split; [discriminate|].
  split; [intros [e He]; discriminate|].
  intros body' v' H1 H2 H3. destruct (Hfit body' v' H1 H2 H3).
Qed.

Lemma patch_store_cases
  (st : Store) (id_param : string) (request : JsonResult) :
  snd (PATCH st id_param request) = st
  \/ exists sid x,
       snd (PATCH st id_param request) =
       snd (update_session_status st sid (status_text x)).
Proof.
  unfold Api.PATCH.
  destruct (JsParseInt.parseInt id_param) as [sid|]; [|now left].
  destruct (sid <=? 0); [now left|].
  destruct request as [body|e]; [|now left].
  destruct (updateSessionSchema body) as [issues|x]; [now left|].
  destruct (select_session_status st sid) as [|existing rest]; [now left|].
  destruct (String.eqb (snd existing) (status_text x)); [now left|].
  right. exists sid, x. unfold update_session_status.
  now destruct (filter (fun s => id s =? sid) (sessions st)).
Qed.

(** X5. Both writing handlers keep the store well formed: ids stay
    distinct, positive and below the sequence, and every status stays one
    of "Scheduled" and "Completed". *)
Theorem handlers_keep_store_wf
  (st : Store) (id_param : string) (request : JsonResult) :
  store_wf st ->
  store_wf (snd (POST st request))
  /\ store_wf (snd (PATCH st id_param request)).
Proof.
  intros [Hseq [Hnd [Hid Hst]]]. split.
  - destruct (post_store_cases st request) as [[[_ [t [p [d ->]]]]|[_ ->]] _];
      [|now repeat split].
    unfold store_wf. simpl. split; [lia|]. split; [|split].
    + rewrite map_app. simpl.
      apply NoDup_app; [assumption|repeat constructor; intros []|].
      intros a Ha [<-|[]]. apply in_map_iff in Ha.
      destruct Ha as [s [Hs Hin]]. rewrite Forall_forall in Hid.
      specialize (Hid s Hin). lia.
    + apply Forall_app. split.
      * eapply Forall_impl; [|exact Hid]. simpl. intros; lia.
      * constructor; [|constructor]. simpl. lia.
    + apply Forall_app. split; [assumption|]. repeat constructor.
  - destruct (patch_store_cases st id_param request) as [->|[sid [x ->]]];
      [now repeat split|].
    rewrite update_rows. unfold store_wf. simpl. split; [assumption|].
    split; [|split].
    + rewrite map_map.
      replace (map (fun s => id (if id s =? sid
                                 then set_status (status_text x) s else s))
                 (sessions st)) with (map id (sessions st)); [assumption|].
      apply map_ext. intros s. now destruct (id s =? sid).
    + apply Forall_map. eapply Forall_impl; [|exact Hid].
      intros s Hs. now destruct (id s =? sid).
    + apply Forall_map. eapply Forall_impl; [|exact Hst].
      intros s Hs. destruct (id s =? sid); [|assumption].
      simpl. destruct x; auto.
Qed.

Lemma post_created_row_in_joined
  (st : Store) (request : JsonResult) (row : SessionWithDetails) :
  Api.body (fst (POST st request)) = BCreated (Some row) ->
  In row (joined (snd (POST st request))).
Proof.
  unfold Api.POST.
  destruct request as [body|e]; [|discriminate].
  destruct (createSessionSchema is_datetime body) as [issues|v];
    [discriminate|].
  destruct (List.length (select_therapist_id st (cs_therapist_id v)) =? 0)%nat;
    [discriminate|].
  destruct (List.length (select_patient_id st (cs_patient_id v)) =? 0)%nat;
    [discriminate|].
  cbn [insert_session fst snd Api.body].
  unfold select_session_joined_by_id. intros [= Hrow].
  destruct (filter _ _) as [|r0 rs] eqn:Hf; [discriminate|].
  injection Hrow as ->.
  assert (Hin : In row (row :: rs)) by now left.
  rewrite <- Hf in Hin. now apply filter_In in Hin.
Qed.

(** X6. After a creation answered 201 the list operation returns every row
    it returned before, and the row sent back with the 201. *)
Theorem post_then_list
  (st : Store) (request : JsonResult) :
  status_code (fst (POST st request)) = 201 ->
  (forall old, In old (Spec.listed (GET st)) ->
               In old (Spec.listed (GET (snd (POST st request)))))
  /\ (forall row, Api.body (fst (POST st request)) = BCreated (Some row) ->
                  In row (Spec.listed (GET (snd (POST st request))))).
Proof.
  intros H201. split.
  - intros old Hold.
    destruct (post_store_cases st request)
      as [[[_ [t [p [d Hst]]]]|[[H|H] _]] _];
      [|rewrite H201 in H; discriminate..].
    rewrite Hst.
    change (In old (orderBy_date (joined st))) in Hold.
    change (In old (orderBy_date
                      (joined (mkStore (therapists st) (patients st)
                                 (sessions st ++
                                  [mkSession (sessions_id_seq st) t p d
                                     "Scheduled"])
                                 (sessions_id_seq st + 1))))).
    apply (Permutation_in _ (ApiProps.orderBy_date_perm _)).
    rewrite ApiProps.joined_app. apply in_or_app. left.
    apply (Permutation_in _
             (Permutation_sym (ApiProps.orderBy_date_perm _))) in Hold.
    exact Hold.
  - intros row Hrow.
    change (In row (orderBy_date (joined (snd (POST st request))))).
    apply (Permutation_in _ (ApiProps.orderBy_date_perm _)).
    now apply post_created_row_in_joined.
Qed.

End HandlerFacts.

(** *** Writing, then listing *)

Lemma leftJoin_cons {A B : Type} (on : A -> B -> bool) (a : A) (l : list A)
  (r : list B) :
  leftJoin on (a :: l) r =
  (match filter (on a) r with
   | [] => [(a, None)]
   | ms => map (fun b => (a, Some b)) ms
   end ++ leftJoin on l r)%list.
Proof. reflexivity. Qed.

Lemma leftJoin_map_left {A B : Type} (on : A -> B -> bool) (f : A -> A)
  (l : list A) (r : list B) :
  (forall a b, on (f a) b = on a b) ->
  leftJoin on (map f l) r =
  map (fun p => (f (fst p), snd p)) (leftJoin on l r).
Proof.
  intros Hon. induction l as [|a l IH]; [reflexivity|].
  cbn [map]. rewrite !leftJoin_cons, map_app, IH. f_equal.
  rewrite (filter_ext (on (f a)) (on a) (Hon a)).
  destruct (filter (on a) r) as [|m ms]; [reflexivity|].
  rewrite map_map. reflexivity.
Qed.

Lemma joined_set_status (st : Store) (sid : Z) (stat : string) :
  joined (snd (update_session_status st sid stat)) =
  map (set_details_status sid stat) (joined st).
Proof.
  rewrite update_rows. unfold joined. cbn [sessions therapists patients].
  rewrite (leftJoin_map_left (fun s t => therapist_id s =? t_id t)
             (fun s => if id s =? sid then set_status stat s else s)).
  2: { intros a b. now destruct (id a =? sid). }
  rewrite (leftJoin_map_left
             (fun (sp : Session * option Therapist) p =>
                patient_id (fst sp) =? p_id p)
             (fun p => (if id (fst p) =? sid then set_status stat (fst p)
                        else fst p, snd p))).
  2: { intros [a o] b. simpl. now destruct (id a =? sid). }
  rewrite !map_map. apply map_ext. intros [[s ot] op].
  unfold set_details_status. simpl.
  now destruct (id s =? sid).
Qed.

Lemma sorted_map_same_dates (g : SessionWithDetails -> SessionWithDetails)
  (l : list SessionWithDetails) :
  (forall y, d_date (g y) = d_date y) ->
  StronglySorted Spec.date_le l -> StronglySorted Spec.date_le (map g l).
Proof.
  intros Hg. induction 1 as [|a l Hs IH Ha]; simpl; constructor;
    [assumption|].
  rewrite Forall_forall in *. intros y Hy. apply in_map_iff in Hy.
  destruct Hy as [z [<- Hz]]. unfold Spec.date_le. rewrite !Hg.
  now apply Ha.
Qed.

(** Rows in ascending order of date, no two with the same date, have one
    order only. *)
Lemma sorted_by_date_unique (l1 l2 : list SessionWithDetails) :
  StronglySorted Spec.date_le l1 -> StronglySorted Spec.date_le l2 ->
  Permutation l1 l2 -> NoDup (map d_date l1) -> l1 = l2.
Proof.
  intros H1. revert l2.
  induction H1 as [|a l1 Hs1 IH Ha]; intros l2 H2 Hp Hnd.
  - apply Permutation_nil in Hp. now subst.
  - destruct H2 as [|b l2 Hs2 Hb].
    + apply Permutation_sym, Permutation_nil in Hp. discriminate.
    + inversion Hnd as [|? ? Hnot Hnd']; subst.
      assert (a = b).
      { rewrite Forall_forall in Ha, Hb.
        assert (Hab : In a (b :: l2))
          by (apply (Permutation_in _ Hp); now left).
        assert (Hba : In b (a :: l1))
          by (apply (Permutation_in _ (Permutation_sym Hp)); now left).
        destruct Hab as [->|Hab]; [reflexivity|].
        destruct Hba as [->|Hba]; [reflexivity|].
        specialize (Ha b Hba). specialize (Hb a Hab).
        unfold Spec.date_le in Ha, Hb. exfalso. apply Hnot.
        replace (d_date a) with (d_date b) by lia. now apply in_map. }
      subst b. f_equal. apply IH; [assumption| |assumption].
      now apply Permutation_cons_inv with a.
Qed.

(** X7. After a status update that changed a session, the list query has
    the rows it had before, the rows of that session now reading the new
    status.  [before] and [after] stand for any answer the query may give:
    the joined rows in an ascending order of date, rows of equal date in any
    order.  When no two rows of [before] have the same date, [after] is
    [before] row for row. *)
Theorem patch_then_list
  (issue_message : Issue -> string) (NODE_ENV : string)
  (st : Store) (id_param : string) (sid : Z) (s : Session)
  (body : Json.t) (x : SessionStatus)
  (before after : list SessionWithDetails) :
  JsParseInt.parseInt id_param = Some sid ->
  0 < sid ->
  find (fun r => id r =? sid) (sessions st) = Some s ->
  status s <> status_text x ->
  updateSessionSchema body = inr x ->
  Permutation before (joined st) ->
  StronglySorted Spec.date_le before ->
  Permutation after
    (joined (snd (Api.PATCH issue_message NODE_ENV st id_param
                    (Parsed body)))) ->
  StronglySorted Spec.date_le after ->
  Permutation after (map (set_details_status sid (status_text x)) before)
  /\ (NoDup (map d_date before) ->
      after = map (set_details_status sid (status_text x)) before).
Proof.
  intros Hp Hpos Hf Hne Hb Hbefore Hsb Hafter Hsa.
  assert (Hst : snd (Api.PATCH issue_message NODE_ENV st id_param
                       (Parsed body))
                = snd (update_session_status st sid (status_text x))).
  { unfold Api.PATCH. rewrite Hp.
    destruct (Z.leb_spec sid 0); [lia|].
    rewrite Hb, (ApiProps.select_session_status_found _ _ _ Hf).
    cbn [snd]. destruct (String.eqb_spec (status s) (status_text x));
      [contradiction|].
    unfold update_session_status.
    now destruct (ApiProps.find_filter_head _ _ _ Hf) as [rest ->]. }
  rewrite Hst, joined_set_status in Hafter.
  assert (Hdate : forall y,
            d_date (set_details_status sid (status_text x) y) = d_date y).
  { intros y. unfold set_details_status. now destruct (d_id y =? sid). }
  assert (Hperm : Permutation after
                    (map (set_details_status sid (status_text x)) before)).
  { eapply perm_trans; [exact Hafter|].
    apply Permutation_map, Permutation_sym, Hbefore. }
  split; [exact Hperm|]. intros Hnd. symmetry.
  apply sorted_by_date_unique.
  - now apply sorted_map_same_dates.
  - exact Hsa.
  - now apply Permutation_sym.
  - rewrite map_map. rewrite (map_ext _ d_date Hdate). exact Hnd.
Qed.

(** X8. Every listed row is a stored session with its own columns.  A
    therapist name in it is the name of a therapist row with the session's
    therapist id, and it is null only when no therapist has that id; the
    same holds for the patient. *)
Theorem list_rows_are_sound (st : Store) (row : SessionWithDetails) :
  In row (Spec.listed (GET st)) ->
  (exists s, In s (sessions st)
             /\ d_id row = id s /\ d_date row = date s
             /\ d_status row = status s
             /\ d_therapist_id row = therapist_id s
             /\ d_patient_id row = patient_id s)
  /\ match d_therapist_name row with
     | Some n => exists t, In t (therapists st)
                           /\ t_id t = d_therapist_id row /\ t_name t = n
     | None => ~ Spec.therapist_exists st (d_therapist_id row)
     end
  /\ match d_patient_name row with
     | Some n => exists p, In p (patients st)
                           /\ p_id p = d_patient_id row /\ p_name p = n
     | None => ~ Spec.patient_exists st (d_patient_id row)
     end.
Proof.
  intros Hin.
  change (In row (orderBy_date (joined st))) in Hin.
  apply (Permutation_in _ (Permutation_sym (ApiProps.orderBy_date_perm _)))
    in Hin.
  apply ApiProps.in_joined in Hin.
  destruct Hin as [s [ot [op [-> [Hs [Hot Hop]]]]]]. simpl.
  split; [exists s; repeat split; assumption|]. split.
  - destruct ot as [t|]; simpl.
    + destruct Hot as [Ht Hid]. exists t. repeat split; auto.
    + intros [t [Ht Hid]].
      assert (Hf : In t (filter (fun t => therapist_id s =? t_id t)
                           (therapists st))).
      { apply filter_In. split; [assumption|]. apply Z.eqb_eq. now symmetry. }
      rewrite Hot in Hf. contradiction.
  - destruct op as [p|]; simpl.
    + destruct Hop as [Hp Hid]. exists p. repeat split; auto.
    + intros [p [Hp Hid]].
      assert (Hf : In p (filter (fun p => patient_id s =? p_id p)
                           (patients st))).
      { apply filter_In. split; [assumption|]. apply Z.eqb_eq. now symmetry. }
      rewrite Hop in Hf. contradiction.
Qed.

Lemma joined_ids (st : Store) :
  NoDup (map t_id (therapists st)) ->
  NoDup (map p_id (patients st)) ->
  map d_id (joined st) = map id (sessions st).
Proof.
  intros Ht Hp. unfold joined.
  rewrite (ApiProps.leftJoin_single (fun s t => therapist_id s =? t_id t)).
  2: { intros a. now apply ApiProps.filter_unique_key. }
  rewrite (ApiProps.leftJoin_single
             (fun (sp : Session * option Therapist) p =>
                patient_id (fst sp) =? p_id p)).
  2: { intros a. now apply ApiProps.filter_unique_key. }
  rewrite !map_map. reflexivity.
Qed.

(** X9. When the keys of the therapists and of the patients are unique,
    the list has one row for each stored session: its ids are the stored
    ids, each as often as stored. *)
Theorem list_has_one_row_per_session (st : Store) :
  NoDup (map t_id (therapists st)) ->
  NoDup (map p_id (patients st)) ->
  Permutation (map d_id (Spec.listed (GET st))) (map id (sessions st))
  /\ List.length (Spec.listed (GET st)) = List.length (sessions st).
Proof.
  intros Ht Hp.
  assert (Hperm : Permutation (map d_id (Spec.listed (GET st)))
                    (map id (sessions st))).
  { rewrite <- (joined_ids st Ht Hp). apply Permutation_map.
    apply Permutation_sym. exact (ApiProps.orderBy_date_perm (joined st)). }
  split; [exact Hperm|].
  apply Permutation_length in Hperm. now rewrite !length_map in Hperm.
Qed.

End ApiMore.

(* ================================================================== *)
(** ** The earlier handlers against the current ones *)

Module LegacyProps.

Import Json Zod Db Invariants.

Lemma unique_row (l : list Session) (sid : Z) (s : Session) :
  NoDup (map id l) ->
  find (fun r => id r =? sid) l = Some s ->
  forall r, In r l -> id r = sid -> r = s.
Proof.
  induction l as [|a l IH]; simpl; [discriminate|].
  intros Hnd Hf r Hr Hid. inversion Hnd as [|? ? Hnot Hnd']; subst.
  destruct (Z.eqb_spec (id a) (id r)) as [Ha|Ha].
  - injection Hf as <-. destruct Hr as [->|Hr]; [reflexivity|].
    exfalso. apply Hnot. rewrite Ha. now apply in_map.
  - destruct Hr as [->|Hr]; [congruence|]. now apply IH.
Qed.

(** X10. On a well-formed store the earlier and the current status-update
    handler write the same thing for every path id and every request; they
    differ in their answers only. *)
Theorem legacy_patch_writes_the_same
  (issue_message : Issue -> string) (NODE_ENV : string)
  (st : Store) (id_param : string) (request : Api.JsonResult) :
  store_wf st ->
  snd (Legacy.PATCH st id_param request)
  = snd (Api.PATCH issue_message NODE_ENV st id_param request).
Proof.
  intros [Hseq [Hnd [Hid Hst]]]. unfold Legacy.PATCH, Api.PATCH.
  destruct (JsParseInt.parseInt id_param) as [sid|]; [|reflexivity].
  assert (Hlegacy : forall x,
    snd (let '(rows, st1) :=
           update_session_status st sid (status_text x) in
         match rows with
         | [] => (Legacy.mkResponse 404 (Legacy.LError "Session not found"),
                  st1)
         | updated :: _ =>
             (Legacy.mkResponse 200 (Legacy.LSession (Some updated)), st1)
         end)
    = snd (update_session_status st sid (status_text x))).
  { intros x. unfold update_session_status.
    now destruct (map _ (filter _ _)). }
  assert (Hnone : forall stat,
            (forall r, In r (sessions st) -> id r = sid -> status r = stat) ->
            snd (update_session_status st sid stat) = st).
  { intros stat H. rewrite ApiMore.update_rows.
    rewrite (ApiMore.map_set_status_none sid stat _ H).
    apply ApiMore.store_eta. }
  destruct (Z.leb_spec sid 0) as [Hle|Hpos].
  - destruct request as [body|e]; [|reflexivity].
    destruct (updateSessionSchema body) as [issues|x]; [reflexivity|].
    rewrite Hlegacy. cbn [snd]. apply Hnone.
    intros r Hr Hrid. rewrite Forall_forall in Hid.
    specialize (Hid r Hr). lia.
  - destruct request as [body|e]; [|reflexivity].
    destruct (updateSessionSchema body) as [issues|x]; [reflexivity|].
    rewrite Hlegacy.
    destruct (find (fun r => id r =? sid) (sessions st)) as [s|] eqn:Hf.
    + rewrite (ApiProps.select_session_status_found _ _ _ Hf). cbn [snd].
      destruct (String.eqb_spec (status s) (status_text x)) as [Heq|Hne].
      * cbn [snd]. apply Hnone. intros r Hr Hrid.
        now rewrite (unique_row _ _ _ Hnd Hf r Hr Hrid).
      * unfold update_session_status.
        now destruct (ApiProps.find_filter_head _ _ _ Hf) as [rest ->].
    + rewrite ApiMore.select_session_status_none.
      * cbn [snd]. apply Hnone. intros r Hr Hrid. exfalso.
        apply (find_none _ _ Hf) in Hr. apply Z.eqb_neq in Hr. contradiction.
      * intros r Hr Hrid.
        apply (find_none _ _ Hf) in Hr. apply Z.eqb_neq in Hr. contradiction.
Qed.


End LegacyProps.

(* ================================================================== *)
(** ** The session id on its way from the table to the handler *)

Module NumberProps.

Import JsParseInt JsNumber.

Lemma ws_len_plain (c : ascii) (r : string) :
  14 <= code c < 128 -> code c <> 32 -> ws_len (String c r) = 0%nat.
Proof.
  intros Hr H32. unfold ws_len.
  remember (code c) as b0.
  replace ((9 <=? b0) && (b0 <=? 13) || (b0 =? 32)) with false
    by (symmetry; apply orb_false_iff; split;
        [apply andb_false_iff; right; apply Z.leb_gt; lia
        | apply Z.eqb_neq; lia]).
  replace (b0 =? 194) with false by (symmetry; apply Z.eqb_neq; lia).
  replace (b0 =? 225) with false by (symmetry; apply Z.eqb_neq; lia).
  replace (b0 =? 226) with false by (symmetry; apply Z.eqb_neq; lia).
  replace (b0 =? 227) with false by (symmetry; apply Z.eqb_neq; lia).
  replace (b0 =? 239) with false by (symmetry; apply Z.eqb_neq; lia).
  destruct r as [|c1 [|c2 r2]]; reflexivity.
Qed.

Lemma trimStart_plain (c : ascii) (r : string) :
  ws_len (String c r) = 0%nat -> trimStart (String c r) = String c r.
Proof.
  intros H. unfold trimStart. cbn [String.length trimStart_fuel].
  now rewrite H.
Qed.

Lemma decimal_char_range (c : ascii) :
  (48 <=? code c) && (code c <=? 57) = true -> 48 <= code c <= 57.
Proof.
  intros H. apply andb_true_iff in H. destruct H as [H1 H2].
  apply Z.leb_le in H1, H2. lia.
Qed.

(** A numeral written with decimal digits only is read in base ten, whole. *)
Lemma parseInt_all_decimal (s : string) :
  Spec.all_decimal s = true -> s <> "" ->
  parseInt s = digits 10 None s.
Proof.
  intros Hs Hne. destruct s as [|c r]; [congruence|]. clear Hne.
  simpl in Hs. apply andb_true_iff in Hs. destruct Hs as [Hc Hr].
  unfold parseInt. rewrite trimStart_plain.
  2: { apply decimal_char_range in Hc. apply ws_len_plain; lia. }
  destruct c as [[] [] [] [] [] [] [] []]; try (vm_compute in Hc; discriminate).
  all: try (destruct (digits 10 None _);
            [f_equal; apply Z.mul_1_l | reflexivity]).
  destruct r as [|d r'];
    [destruct (digits 10 None _); [f_equal; apply Z.mul_1_l | reflexivity]|].
  simpl in Hr. apply andb_true_iff in Hr. destruct Hr as [Hd _].
  destruct d as [[] [] [] [] [] [] [] []]; try (vm_compute in Hd; discriminate).
  all: destruct (digits 10 None _); [f_equal; apply Z.mul_1_l | reflexivity].
Qed.

Lemma parseInt_minus (s : string) :
  Spec.all_decimal s = true -> s <> "" ->
  parseInt (String "-"%char s) =
  match digits 10 None s with
  | Some n => Some (- n)
  | None => None
  end.
Proof.
  intros Hs Hne. destruct s as [|c r]; [congruence|]. clear Hne.
  simpl in Hs. apply andb_true_iff in Hs. destruct Hs as [Hc Hr].
  unfold parseInt. rewrite trimStart_plain.
  2: { apply ws_len_plain; change (code "-"%char) with 45; lia. }
  destruct c as [[] [] [] [] [] [] [] []]; try (vm_compute in Hc; discriminate).
  all: try (destruct (digits 10 None _);
            [f_equal; lia | reflexivity]).
  destruct r as [|d r'];
    [destruct (digits 10 None _); [f_equal; lia | reflexivity]|].
  simpl in Hr. apply andb_true_iff in Hr. destruct Hr as [Hd _].
  destruct d as [[] [] [] [] [] [] [] []]; try (vm_compute in Hd; discriminate).
  all: destruct (digits 10 None _); [f_equal; lia | reflexivity].
Qed.

Lemma digit_char_spec (d : Z) :
  0 <= d < 10 ->
  digit 10 (digit_char d) = Some d
  /\ (48 <=? code (digit_char d)) && (code (digit_char d) <=? 57) = true.
Proof.
  intros H.
  assert (Hd : d = 0 \/ d = 1 \/ d = 2 \/ d = 3 \/ d = 4 \/ d = 5 \/ d = 6
               \/ d = 7 \/ d = 8 \/ d = 9) by lia.
  repeat (destruct Hd as [->|Hd]; [split; reflexivity|]).
  subst. split; reflexivity.
Qed.

Lemma decimal_fuel_read (fuel : nat) :
  forall (n : Z) (rest : string),
    (1 <= fuel)%nat -> 0 <= n < 10 ^ Z.of_nat fuel ->
    exists k : nat, forall a,
      digits 10 a (decimal_fuel fuel n rest) =
      digits 10
        (Some (10 ^ Z.of_nat k * match a with Some v => v | None => 0 end
               + n)) rest.
Proof.
  induction fuel as [|fuel IH]; intros n rest Hf Hn; [lia|].
  cbn [decimal_fuel].
  assert (Hm : 0 <= n mod 10 < 10) by (apply Z.mod_pos_bound; lia).
  destruct (digit_char_spec _ Hm) as [Hdig _].
  destruct (Z.ltb_spec n 10) as [Hlt|Hge].
  - exists 1%nat. intros a. cbn [digits]. rewrite Hdig.
    rewrite Z.mod_small by lia. change (10 ^ Z.of_nat 1) with 10.
    now destruct a.
  - assert (Hfuel : (1 <= fuel)%nat).
    { destruct fuel; [|lia]. simpl in Hn. lia. }
    assert (Hdiv : 0 <= n / 10 < 10 ^ Z.of_nat fuel).
    { split; [apply Z.div_pos; lia|].
      apply Z.div_lt_upper_bound; [lia|].
      replace (10 * 10 ^ Z.of_nat fuel) with (10 ^ Z.of_nat (S fuel)); [lia|].
      rewrite Nat2Z.inj_succ, Z.pow_succ_r; lia. }
    destruct (IH (n / 10) (String (digit_char (n mod 10)) rest) Hfuel Hdiv)
      as [k Hk].
    exists (S k). intros a. rewrite Hk. cbn [digits]. rewrite Hdig.
    f_equal. f_equal.
    rewrite Nat2Z.inj_succ, Z.pow_succ_r by lia.
    pose proof (Z.div_mod n 10 ltac:(lia)). lia.
Qed.

Lemma decimal_fuel_all_decimal (fuel : nat) :
  forall (n : Z) (rest : string),
    Spec.all_decimal rest = true ->
    Spec.all_decimal (decimal_fuel fuel n rest) = true.
Proof.
  induction fuel as [|fuel IH]; intros n rest Hr; [exact Hr|].
  cbn [decimal_fuel].
  assert (Hm : 0 <= n mod 10 < 10) by (apply Z.mod_pos_bound; lia).
  destruct (digit_char_spec _ Hm) as [_ Hc].
  assert (Hacc : Spec.all_decimal (String (digit_char (n mod 10)) rest) = true).
  { cbn [Spec.all_decimal]. now rewrite Hc, Hr. }
  destruct (n <? 10); [exact Hacc | now apply IH].
Qed.

Lemma decimal_fuel_nonempty (fuel : nat) (n : Z) (rest : string) :
  rest <> "" -> decimal_fuel fuel n rest <> "".
Proof.
  revert n rest. induction fuel as [|fuel IH]; intros n rest Hr; [exact Hr|].
  cbn [decimal_fuel]. destruct (n <? 10); [discriminate|].
  apply IH. discriminate.
Qed.

Lemma decimal_spec (n : Z) :
  0 <= n ->
  Spec.all_decimal (decimal n) = true
  /\ decimal n <> ""
  /\ digits 10 None (decimal n) = Some n.
Proof.
  intros Hn. unfold decimal. split; [|split].
  - now apply decimal_fuel_all_decimal.
  - cbn [decimal_fuel]. destruct (n <? 10); [discriminate|].
    apply decimal_fuel_nonempty. discriminate.
  - destruct (decimal_fuel_read (S (Z.to_nat (Z.log2 n))) n "") as [k Hk].
    + lia.
    + split; [assumption|].
      rewrite Nat2Z.inj_succ, Z2Nat.id by apply Z.log2_nonneg.
      destruct (Z.eq_dec n 0) as [->|Hnz]; [reflexivity|].
      destruct (Z.log2_spec n ltac:(lia)) as [_ Hup].
      eapply Z.lt_le_trans; [exact Hup|].
      apply Z.pow_le_mono_l. lia.
    + rewrite Hk. cbn [digits]. f_equal. lia.
Qed.

Lemma toString_not_blank (n : Z) :
  0 <= n -> trimStart (toString n) = toString n /\ toString n <> "".
Proof.
  intros Hn. unfold toString.
  destruct (Z.ltb_spec n 0) as [Hneg|_]; [lia|].
  destruct (decimal_spec n Hn) as [Hall [Hne _]].
  split; [|exact Hne].
  destruct (decimal n) as [|c r]; [congruence|].
  simpl in Hall. apply andb_true_iff in Hall. destruct Hall as [Hc _].
  apply decimal_char_range in Hc.
  apply trimStart_plain, ws_len_plain; lia.
Qed.

Lemma parseInt_toString_any (n : Z) : parseInt (toString n) = Some n.
Proof.
  unfold toString. destruct (Z.ltb_spec n 0) as [Hneg|Hpos].
  - destruct (decimal_spec (- n) ltac:(lia)) as [Hall [Hne Hd]].
    rewrite (parseInt_minus _ Hall Hne), Hd. f_equal. lia.
  - destruct (decimal_spec n Hpos) as [Hall [Hne Hd]].
    now rewrite (parseInt_all_decimal _ Hall Hne).
Qed.

(** X12. The id that a template literal writes into the request path is
    read back by [parseInt] as the same integer, for every integer a
    JavaScript number holds exactly. *)
Theorem parseInt_toString (n : Z) :
  Z.abs n <= MAX_SAFE_INTEGER ->
  parseInt (toString n) = Some n.
Proof. intros _. apply parseInt_toString_any. Qed.

(** X13. A path id that is a positive integer in the strict sense, decimal
    digits only, is read as a positive number, so the status-update
    handler never answers it with the invalid-id error. *)
Theorem strict_positive_id_is_accepted
  (issue_message : Zod.Issue -> string) (NODE_ENV : string)
  (st : Db.Store) (s : string) (request : Api.JsonResult) :
  Spec.positive_integer_text s = true ->
  (exists n, parseInt s = Some n /\ 0 < n)
  /\ Api.body (fst (Api.PATCH issue_message NODE_ENV st s request))
     <> Api.BError "Invalid session ID format".
Proof.
  intros H. unfold Spec.positive_integer_text in H.
  apply andb_true_iff in H. destruct H as [H Hpos].
  apply andb_true_iff in H. destruct H as [Hne Hall].
  assert (Hs : s <> "").
  { intros ->. discriminate. }
  rewrite <- (parseInt_all_decimal s Hall Hs) in Hpos.
  destruct (parseInt s) as [n|] eqn:Hp; [|discriminate].
  apply Z.ltb_lt in Hpos. split; [now exists n|].
  unfold Api.PATCH. rewrite Hp.
  destruct (Z.leb_spec n 0); [lia|].
  destruct request as [body|e]; [|discriminate].
  destruct (Zod.updateSessionSchema body) as [issues|x]; [discriminate|].
  destruct (Db.select_session_status st n) as [|existing rest];
    [discriminate|].
  destruct (String.eqb (snd existing) (Zod.status_text x)); [discriminate|].
  destruct (Db.update_session_status st n (Zod.status_text x)) as [rows st1].
  destruct rows; discriminate.
Qed.

(** X14. The request that the table sends to mark session [n] completed,
    path id and body as the client writes them, is carried out on session
    [n] when that session is stored as "Scheduled": the answer is 200 with
    the row now "Completed", and in the store the rows with id [n] are
    "Completed" and nothing else has changed. *)
Theorem mark_completed_reaches_the_session
  (issue_message : Zod.Issue -> string) (NODE_ENV : string)
  (st : Db.Store) (n : Z) (s : Db.Session) :
  0 < n <= MAX_SAFE_INTEGER ->
  find (fun r => Db.id r =? n) (Db.sessions st) = Some s ->
  Db.status s = "Scheduled" ->
  Api.PATCH issue_message NODE_ENV st
    (Invariants.markCompleted_id_param n)
    (Api.Parsed Invariants.markCompleted_body) =
    (Api.mkResponse 200
       (Api.BUpdated "Session updated successfully"
          (Invariants.set_status "Completed" s))
       [("Cache-Control", "no-cache")],
     Db.mkStore (Db.therapists st) (Db.patients st)
       (map (fun r => if Db.id r =? n
                      then Invariants.set_status "Completed" r else r)
          (Db.sessions st))
       (Db.sessions_id_seq st)).
Proof.
  intros Hn Hf Hs.
  apply (ApiMore.patch_updates issue_message NODE_ENV st
           (Invariants.markCompleted_id_param n) n s
           Invariants.markCompleted_body Zod.Completed).
  - apply parseInt_toString_any.
  - lia.
  - exact Hf.
  - rewrite Hs. discriminate.
  - reflexivity.
Qed.

End NumberProps.

(* ================================================================== *)
(** ** Further properties of the client *)

Module ClientMore.

Import Json Client.

Lemma set_status_all (sid : Z) (s : string) (l : list SessionWithDetails)
  (x : SessionWithDetails) :
  In x (map (fun y => if id y =? sid then with_status y s else y) l) ->
  id x = sid -> status x = s.
Proof.
  intros Hin Hid. apply in_map_iff in Hin. destruct Hin as [y [<- Hy]].
  destruct (Z.eqb_spec (id y) sid) as [_|Hne]; [reflexivity|contradiction].
Qed.

Section PageFacts.

Variable NODE_ENV : string.
Variable js_String : Json.t -> string.

Local Abbreviation apiCall := (Client.apiCall NODE_ENV js_String).

(** X15. [apiCall] hands back the parsed body exactly when the request
    resolved, the status is a success, the body is JSON and, outside the
    test environment, the content type (when there is one) contains
    [application/json]; in every other case it throws. *)
Theorem apiCall_success_iff (r : FetchResult Json.t) (data : Json.t) :
  apiCall r = inr data <->
  exists response,
    r = Resolved response
    /\ ok response = true
    /\ json response = inr data
    /\ (NODE_ENV = "test"
        \/ match headers_get response with
           | Some (Some c) => c = "" \/ includes "application/json" c = true
           | _ => True
           end).
Proof.
  unfold Client.apiCall. split.
  - destruct r as [response|reason]; [|discriminate].
    destruct (String.eqb_spec NODE_ENV "test") as [Ht|Ht].
    + cbn [negb andb].
      destruct (json response) as [e|d] eqn:Hj; [discriminate|].
      destruct (ok response) eqn:Hok; cbn [negb].
      * intros [= ->]. exists response. repeat split; auto.
      * destruct d; discriminate.
    + cbn [negb andb].
      destruct (headers_get response) as [[c|]|] eqn:Hh.
      * cbn [truthy].
        destruct (String.eqb_spec c "") as [Hc|Hc]; cbn [negb andb].
        -- destruct (json response) as [e|d] eqn:Hj; [discriminate|].
           destruct (ok response) eqn:Hok; cbn [negb].
           ++ intros [= ->]. exists response. rewrite Hh. repeat split; auto.
           ++ destruct d; discriminate.
        -- destruct (includes "application/json" c) eqn:Hi; cbn [negb];
             [|discriminate].
           destruct (json response) as [e|d] eqn:Hj; [discriminate|].
           destruct (ok response) eqn:Hok; cbn [negb].
           ++ intros [= ->]. exists response. rewrite Hh. repeat split; auto.
           ++ destruct d; discriminate.
      * cbn [truthy andb].
        destruct (json response) as [e|d] eqn:Hj; [discriminate|].
        destruct (ok response) eqn:Hok; cbn [negb].
        -- intros [= ->]. exists response. rewrite Hh. repeat split; auto.
        -- destruct d; discriminate.
      * cbn [truthy].
        destruct (json response) as [e|d] eqn:Hj; [discriminate|].
        destruct (ok response) eqn:Hok; cbn [negb].
        -- intros [= ->]. exists response. rewrite Hh. repeat split; auto.
        -- destruct d; discriminate.
  - intros [response [-> [Hok [Hj Hct]]]]. rewrite Hj, Hok. cbn [negb].
    destruct Hct as [->|Hct]; [reflexivity|].
    destruct (headers_get response) as [[c|]|].
    + destruct Hct as [->|Hi].
      * cbn. now rewrite andb_false_r.
      * rewrite Hi. cbn. now rewrite !andb_false_r.
    + cbn. now rewrite andb_false_r.
    + replace (includes "application/json" "application/json") with true
        by reflexivity.
      cbn. now rewrite andb_false_r.
Qed.

End PageFacts.

(** X16. When the request succeeds, whatever the body of the answer, the
    settling step clears the pending marker and touches nothing else: the
    rows stay as the optimistic step left them, "Completed", and no error
    is set. *)
Theorem mark_completed_success_keeps_optimistic
  (props_sessions : list SessionWithDetails) (sid : Z) (app app_mid : App)
  (data : Json.t) :
  let started := handleMarkCompleted_begin props_sessions sid app in
  handleMarkCompleted_settle (snd started) (inr data) app_mid
    = mkApp (home app_mid) None
  /\ (forall x, In x (sessions (home (fst started))) -> id x = sid ->
                status x = "Completed")
  /\ map id (sessions (home (fst started))) = map id (sessions (home app))
  /\ error (home (fst started)) = error (home app).
Proof.
  cbv zeta. split; [reflexivity|]. split; [|split].
  - intros x Hin Hid. exact (set_status_all sid "Completed" _ x Hin Hid).
  - apply ClientProps.set_status_ids.
  - reflexivity.
Qed.

(** X17. After a failed update of a "Scheduled" session the page shows the
    error panel in place of the dashboard, with the text of the update
    failure; once the timer has cleared the error, the dashboard is shown
    again. *)
Theorem failed_update_shows_error_panel
  (props_sessions : list SessionWithDetails) (sid : Z)
  (s : SessionWithDetails) (app app_mid : App) (e : Thrown) :
  find (fun x => id x =? sid) props_sessions = Some s ->
  status s = "Scheduled" ->
  let started := handleMarkCompleted_begin props_sessions sid app in
  let settled := handleMarkCompleted_settle (snd started) (inl e) app_mid in
  Home_view (home settled)
    = ErrorPanel "Failed to update session. Please try again." FetchSessions
  /\ Home_view (clear_error (home settled))
     = Dashboard (successMessage (home app_mid))
         (List.length (sessions (home app_mid))) (loading (home app_mid)).
Proof.
  intros Hf Hs. cbv zeta.
  unfold handleMarkCompleted_begin, handleMarkCompleted_settle.
  rewrite Hf. cbn [snd option_map pu_originalStatus pu_sessionId].
  rewrite Hs. cbn [truthy String.eqb Ascii.eqb Bool.eqb negb].
  split; [reflexivity|].
  unfold Home_view, clear_error, handleSessionUpdateError.
  cbn [home error successMessage sessions loading].
  now rewrite length_map.
Qed.

(** X18. When the id is not in the list the table was rendered with, or
    the session found there has an empty status, a failure rolls nothing
    back and reports nothing: the page is left as it is, only the pending
    marker is cleared. *)
Theorem no_rollback_without_captured_status
  (props_sessions : list SessionWithDetails) (sid : Z) (app app_mid : App)
  (result : Thrown + Json.t) :
  match find (fun x => id x =? sid) props_sessions with
  | Some s => status s = ""
  | None => True
  end ->
  handleMarkCompleted_settle
    (snd (handleMarkCompleted_begin props_sessions sid app)) result app_mid
  = mkApp (home app_mid) None.
Proof.
  intros H. unfold handleMarkCompleted_begin, handleMarkCompleted_settle.
  destruct result as [e|data]; [|reflexivity].
  destruct (find (fun x => id x =? sid) props_sessions) as [s|];
    [|reflexivity].
  cbn [snd option_map pu_originalStatus]. now rewrite H.
Qed.

(** X19. In the table fed with the page's list after a click, the row of
    the clicked session shows the completed indicator and no button, so it
    cannot be clicked again; no row of that table shows the button in its
    "Updating..." state. *)
Theorem clicked_row_has_no_button
  (props_sessions rendered : list SessionWithDetails) (sid : Z) (app : App) :
  let started := fst (handleMarkCompleted_begin props_sessions sid app) in
  (forall x, In x rendered -> In x (sessions (home started))) ->
  (forall x, In x rendered -> id x = sid ->
             row_action started x = CompletedIndicator)
  /\ forall x, In x rendered ->
       match row_action started x with
       | MarkCompletedButton disabled spinner label _ =>
           disabled = false /\ spinner = false /\ label = "Mark Completed"
       | _ => True
       end.
Proof.
  cbv zeta. intros Hsub.
  assert (Hst : forall x, In x rendered -> id x = sid ->
                          status x = "Completed").
  { intros x Hx Hid. specialize (Hsub x Hx).
    unfold handleMarkCompleted_begin in Hsub.
    cbn [fst home sessions handleSessionUpdate] in Hsub.
    exact (set_status_all sid "Completed" _ x Hsub Hid). }
  split.
  - intros x Hx Hid. unfold row_action. now rewrite (Hst x Hx Hid).
  - intros x Hx. unfold row_action, isUpdating, handleMarkCompleted_begin.
    cbn [fst updatingSessionId].
    destruct (String.eqb_spec (status x) "Scheduled") as [Hs|Hs].
    + destruct (Z.eqb_spec sid (id x)) as [Heq|Hne]; [|auto].
      rewrite (Hst x Hx (eq_sym Heq)) in Hs. discriminate.
    + now destruct (String.eqb (status x) "Completed").
Qed.


End ClientMore.

(* ================================================================== *)
(** ** Properties of the page's filter and sort *)

Module DashboardProps.

Import Json Client Dashboard.

Lemma insert_sorted_perm {A : Type} (cmp : A -> A -> Z) (x : A)
  (l : list A) :
  Permutation (x :: l) (insert_sorted cmp x l).
Proof.
  induction l as [|y l IH]; simpl; [apply Permutation_refl|].
  destruct (cmp x y <? 0); [apply Permutation_refl|].
  apply perm_trans with (y :: x :: l); [apply perm_swap|].
  now apply perm_skip.
Qed.

Lemma sort_perm {A : Type} (cmp : A -> A -> Z) (l : list A) :
  Permutation l (sort cmp l).
Proof.
  unfold sort.
  assert (H : forall acc,
            Permutation (acc ++ l)
              (fold_left (fun acc x => insert_sorted cmp x acc) l acc)).
  { induction l as [|x l IH]; intros acc; simpl.
    - now rewrite app_nil_r.
    - eapply perm_trans; [|apply IH].
      pose proof (Permutation_app_tail l (insert_sorted_perm cmp x acc)) as Hq.
      eapply perm_trans; [|exact Hq].
      simpl. apply Permutation_sym, Permutation_middle. }
  exact (H []).
Qed.

Lemma includes_empty (s : string) : includes "" s = true.
Proof. destruct s; reflexivity. Qed.

Section PageFilters.

Variable toLowerCase : string -> string.
Variable Date_getTime : string -> option Z.
Variable string_lt : string -> string -> bool.

Local Abbreviation filteredSessions :=
  (Dashboard.filteredSessions toLowerCase Date_getTime string_lt).

Lemma in_filteredSessions (f : Filters) (l : list SessionWithDetails)
  (x : SessionWithDetails) :
  In x (filteredSessions f l) <->
  In x l /\ matchesSearch toLowerCase f x = true /\ matchesStatus f x = true.
Proof.
  unfold Dashboard.filteredSessions. split.
  - intros H.
    apply (Permutation_in _ (Permutation_sym (sort_perm _ _))) in H.
    apply filter_In in H. destruct H as [Hin Hb].
    apply andb_true_iff in Hb. tauto.
  - intros [Hin [Hs Ht]]. apply (Permutation_in _ (sort_perm _ _)).
    apply filter_In. split; [assumption|]. now rewrite Hs, Ht.
Qed.

(** X21. The table is handed exactly the sessions of the page that pass
    both filters, each as often as the page holds it: a session passes
    when the search term, in lower case, occurs in its therapist's or its
    patient's name in lower case, and when the status filter is "All" or
    equals its status.  Sorting neither adds nor drops a row. *)
Theorem filteredSessions_shows (f : Filters) (l : list SessionWithDetails) :
  (forall x,
     In x (filteredSessions f l) <->
     In x l
     /\ (exists n, (therapist_name x = Some n \/ patient_name x = Some n)
                   /\ includes (toLowerCase (searchTerm f)) (toLowerCase n)
                      = true)
     /\ (statusFilter f = "All" \/ status x = statusFilter f))
  /\ Permutation
       (filter (fun s => matchesSearch toLowerCase f s && matchesStatus f s) l)
       (filteredSessions f l).
Proof.
  split; [|apply sort_perm].
  intros x. rewrite in_filteredSessions.
  unfold matchesSearch, matchesStatus, name_matches.
  rewrite !orb_true_iff, !String.eqb_eq. split.
  - intros [Hin [Hs Ht]]. split; [assumption|]. split.
    + destruct Hs as [Hs|Hs].
      * destruct (therapist_name x) as [n|]; [|discriminate]. eauto.
      * destruct (patient_name x) as [n|]; [|discriminate]. eauto.
    + destruct Ht as [Ht|Ht]; auto.
  - intros [Hin [[n [[Hn|Hn] Hi]] Ht]]; rewrite Hn;
      (split; [assumption|]); (split; [auto|]); destruct Ht; auto.
Qed.

(** X22. A session whose therapist name and patient name are both null is
    never handed to the table, whatever the search term, the status filter
    and the sort are; not even with an empty search term. *)
Theorem nameless_session_is_hidden (f : Filters)
  (l : list SessionWithDetails) (x : SessionWithDetails) :
  therapist_name x = None ->
  patient_name x = None ->
  ~ In x (filteredSessions f l).
Proof.
  intros Ht Hp Hin. apply in_filteredSessions in Hin.
  destruct Hin as [_ [Hs _]]. unfold matchesSearch, name_matches in Hs.
  rewrite Ht, Hp in Hs. discriminate.
Qed.

(** X23. With the filters cleared (empty search term, status "All") the
    table is handed every session of the page that has a therapist name or
    a patient name, and [hasActiveFilters] is off.  The empty string is its
    own lower case. *)
Theorem cleared_filters_show_named_sessions (f : Filters)
  (l : list SessionWithDetails) (x : SessionWithDetails) :
  toLowerCase "" = "" ->
  In x l ->
  therapist_name x <> None \/ patient_name x <> None ->
  In x (filteredSessions (clearFilters f) l)
  /\ hasActiveFilters (clearFilters f) = false.
Proof.
  intros Hlow Hin Hname. split; [|reflexivity].
  apply in_filteredSessions. split; [assumption|]. split; [|reflexivity].
  unfold matchesSearch, name_matches. cbn [clearFilters searchTerm].
  rewrite Hlow.
  destruct (therapist_name x) as [n|].
  - now rewrite includes_empty.
  - destruct (patient_name x) as [n|]; [|destruct Hname; congruence].
    now rewrite includes_empty.
Qed.

(** X24. While the status filter is "Scheduled", a click on "mark
    completed" removes the session from the table at once: after the
    optimistic step no row with that id is handed to the table. *)
Theorem optimistic_row_leaves_scheduled_view (f : Filters)
  (props_sessions : list SessionWithDetails) (sid : Z) (app : App)
  (x : SessionWithDetails) :
  statusFilter f = "Scheduled" ->
  In x (filteredSessions f
          (sessions
             (home (fst (handleMarkCompleted_begin props_sessions sid app)))))
  -> id x <> sid.
Proof.
  intros Hf Hin Hid. apply in_filteredSessions in Hin.
  destruct Hin as [Hin [_ Hst]].
  unfold handleMarkCompleted_begin in Hin.
  cbn [fst home sessions handleSessionUpdate] in Hin.
  pose proof (ClientMore.set_status_all sid "Completed" _ x Hin Hid) as Hc.
  unfold matchesStatus in Hst. rewrite Hf, Hc in Hst. discriminate.
Qed.

End PageFilters.

(** X25. After a successful creation the page closes the modal, sets the
    banner and starts the refetch, with loading on and the error cleared;
    the list it holds is not touched until the refetch settles, and then it
    is replaced by the rows of the answer. *)
Theorem create_success_refetches (st : HomeState)
  (response : FetchResponse ListData) (rows : list SessionWithDetails) :
  ok response = true ->
  json response = inr (DArr rows) ->
  let st1 := onCreateSuccess st in
  sessions st1 = sessions st
  /\ showCreateModal st1 = false
  /\ loading st1 = true
  /\ error st1 = None
  /\ successMessage st1 = Some "Session created successfully"
  /\ sessions (fetchSessions_settle (Resolved response) st1) = rows.
Proof.
  intros Hok Hj. cbv zeta. repeat split.
  unfold fetchSessions_settle, fetchSessions_try. now rewrite Hok, Hj.
Qed.

End DashboardProps.

(* ================================================================== *)
(** ** Properties of the form utilities and of the creation form *)

Module FormProps.

Import Json Utils CreateSessionModal.

Lemma drop_length (n : nat) (s : string) :
  (String.length (JsParseInt.drop n s) <= String.length s)%nat.
Proof.
  revert s. induction n as [|n IH]; intros s; [simpl; lia|].
  destruct s as [|c r]; simpl; [lia|]. specialize (IH r). lia.
Qed.

Lemma trimStart_fuel_done (fuel : nat) :
  forall s, (String.length s <= fuel)%nat ->
            JsParseInt.ws_len (JsParseInt.trimStart_fuel fuel s) = 0%nat.
Proof.
  induction fuel as [|fuel IH]; intros s Hlen.
  - destruct s; [reflexivity|simpl in Hlen; lia].
  - cbn [JsParseInt.trimStart_fuel].
    destruct (JsParseInt.ws_len s) as [|n] eqn:Hw; [exact Hw|].
    apply IH. destruct s as [|c r]; [discriminate|].
    cbn [JsParseInt.drop String.length] in *.
    pose proof (drop_length n r). lia.
Qed.

Lemma trimStart_idem (s : string) :
  JsParseInt.trimStart (JsParseInt.trimStart s) = JsParseInt.trimStart s.
Proof.
  pose proof (trimStart_fuel_done (String.length s) s (le_n _)) as H.
  fold (JsParseInt.trimStart s) in H.
  destruct (JsParseInt.trimStart s) as [|c r]; [reflexivity|].
  unfold JsParseInt.trimStart. cbn [String.length JsParseInt.trimStart_fuel].
  now rewrite H.
Qed.

(** A string trims to nothing exactly when it is white space throughout. *)
Lemma trim_empty_iff (s : string) :
  trim s = "" <-> JsParseInt.trimStart s = "".
Proof.
  unfold trim. split.
  - intros H. destruct (JsParseInt.trimStart s) as [|c r] eqn:Ht;
      [reflexivity|].
    cbn [trimEnd] in H. unfold all_white in H.
    rewrite <- Ht, trimStart_idem, Ht in H. cbn in H. discriminate.
  - intros ->. reflexivity.
Qed.

Lemma is_missing_filled (v : option Json.t) :
  is_missing v = false <-> FormSpec.filled v.
Proof.
  unfold is_missing, FormSpec.filled.
  destruct v as [v|]; [|split; [discriminate|contradiction]].
  destruct v; cbn [Client.truthy_json]; rewrite ?orb_false_r, ?negb_false_iff;
    try reflexivity.
  rewrite orb_false_iff, negb_false_iff, negb_true_iff. split.
  - intros [_ H] Ht. apply trim_empty_iff in Ht. rewrite Ht in H.
    discriminate.
  - intros H. split.
    + apply String.eqb_neq. intros ->. apply H. reflexivity.
    + apply String.eqb_neq. intros Ht. apply H. now apply trim_empty_iff.
Qed.

Section WithBuiltins.

Variable toUpperCase : string -> string.
Variable Date_getTime : string -> option Z.
Variable now : Z.
Variable toISOString : Z -> string.

Local Abbreviation validateRequiredFields :=
  (Utils.validateRequiredFields toUpperCase).
Local Abbreviation validateFutureDate :=
  (Utils.validateFutureDate Date_getTime now).
Local Abbreviation validateForm :=
  (CreateSessionModal.validateForm toUpperCase Date_getTime now).
Local Abbreviation handleSubmit_begin :=
  (CreateSessionModal.handleSubmit_begin toUpperCase Date_getTime now
     toISOString).

Lemma validateRequiredFields_fields (data : list (string * Json.t))
  (requiredFields : list string) :
  map Utils.field (validateRequiredFields data requiredFields) =
  filter (fun f => is_missing (assoc f data)) requiredFields.
Proof.
  induction requiredFields as [|f rest IH]; [reflexivity|].
  cbn [Utils.validateRequiredFields filter].
  destruct (is_missing (assoc f data)); simpl; now rewrite IH.
Qed.


Lemma validateFutureDate_ok (dateValue : string) (h : Z) :
  validateFutureDate dateValue h = "" <->
  dateValue <> ""
  /\ exists t, Date_getTime dateValue = Some t
               /\ now + h * FormSpec.one_hour < t.
Proof.
  unfold Utils.validateFutureDate, FormSpec.one_hour.
  destruct (String.eqb_spec dateValue "") as [->|Hne].
  - split; [discriminate|]. intros [H _]. congruence.
  - destruct (Date_getTime dateValue) as [t|].
    + destruct (Z.leb_spec t (now + h * 60 * 60 * 1000)) as [Hle|Hgt].
      * split; [discriminate|]. intros [_ [t' [[= <-] Ht]]]. lia.
      * split; [|reflexivity]. intros _. split; [assumption|].
        exists t. split; [reflexivity|]. lia.
    + split; [discriminate|]. intros [_ [t [[=] _]]].
Qed.

(** X27. For a number of hours whose milliseconds are computed exactly and
    that leads from now to a time a [Date] can hold, [validateFutureDate]
    accepts a date, returning the empty message, exactly when the text is
    not empty, reads as a date, and lies strictly more than that many hours
    after now; a date exactly that far ahead is refused. *)
Theorem validateFutureDate_accepts (dateValue : string) (h : Z) :
  Z.abs now <= JsBounds.max_time ->
  Z.abs (h * FormSpec.one_hour) <= JsNumber.MAX_SAFE_INTEGER ->
  Z.abs (now + h * FormSpec.one_hour) <= JsBounds.max_time ->
  (validateFutureDate dateValue h = "" <->
   dateValue <> ""
   /\ exists t, Date_getTime dateValue = Some t
                /\ now + h * FormSpec.one_hour < t)
  /\ (Date_getTime dateValue = Some (now + h * FormSpec.one_hour) ->
      validateFutureDate dateValue h <> "").
Proof.
  intros Hnow Hexact Hrange.
  split; [apply validateFutureDate_ok|].
  intros Ht Hok. apply validateFutureDate_ok in Hok.
  destruct Hok as [_ [t [Ht' Hlt]]]. rewrite Ht in Ht'.
  injection Ht' as <-. lia.
Qed.

Lemma obj_set_nonempty (k v : string) (o : list (string * string)) :
  obj_set k v o <> [].
Proof.
  destruct o as [|[k' v'] rest]; simpl; [discriminate|].
  destruct (String.eqb k k'); discriminate.
Qed.

Lemma fold_errors_nonempty {E : Type}
  (step : list (string * string) -> E -> list (string * string))
  (l : list E) (acc : list (string * string)) :
  (forall a e, step a e <> []) ->
  acc <> [] \/ l <> [] -> fold_left step l acc <> [].
Proof.
  intros Hstep. revert acc. induction l as [|e l IH]; intros acc H.
  - simpl. destruct H as [H|H]; [assumption|congruence].
  - simpl. apply IH. left. apply Hstep.
Qed.

Lemma validateForm_ok (fd : FormData) :
  snd (validateForm fd) = true <->
  JsParseInt.trimStart (therapist_id fd) <> ""
  /\ JsParseInt.trimStart (patient_id fd) <> ""
  /\ JsParseInt.trimStart (date fd) <> ""
  /\ exists t, Date_getTime (date fd) = Some t
               /\ now + FormSpec.one_hour < t.
Proof.
  unfold CreateSessionModal.validateForm, validateDate. cbn [snd].
  pose proof (validateFutureDate_ok (date fd) 1) as Hdate.
  rewrite Z.mul_1_l in Hdate.
  set (required := Utils.validateRequiredFields toUpperCase
                     (formData_object fd)
                     ["therapist_id"; "patient_id"; "date"]).
  assert (Hreq : required = [] <->
            JsParseInt.trimStart (therapist_id fd) <> ""
            /\ JsParseInt.trimStart (patient_id fd) <> ""
            /\ JsParseInt.trimStart (date fd) <> "").
  { unfold required.
    pose proof (validateRequiredFields_fields (formData_object fd)
                  ["therapist_id"; "patient_id"; "date"]) as Hf.
    cbn [filter] in Hf.
    change (assoc "therapist_id" (formData_object fd))
      with (Some (JStr (therapist_id fd))) in Hf.
    change (assoc "patient_id" (formData_object fd))
      with (Some (JStr (patient_id fd))) in Hf.
    change (assoc "date" (formData_object fd))
      with (Some (JStr (date fd))) in Hf.
    pose proof (is_missing_filled (Some (JStr (therapist_id fd)))) as Ht.
    pose proof (is_missing_filled (Some (JStr (patient_id fd)))) as Hp.
    pose proof (is_missing_filled (Some (JStr (date fd)))) as Hd.
    cbn [FormSpec.filled] in Ht, Hp, Hd.
    split.
    - intros H. rewrite H in Hf. cbn [map] in Hf.
      destruct (is_missing (Some (JStr (therapist_id fd))));
        [discriminate|].
      destruct (is_missing (Some (JStr (patient_id fd)))); [discriminate|].
      destruct (is_missing (Some (JStr (date fd)))); [discriminate|].
      intuition.
    - intros [H1 [H2 H3]].
      apply Ht in H1. apply Hp in H2. apply Hd in H3.
      rewrite H1, H2, H3 in Hf.
      now destruct (Utils.validateRequiredFields _ _ _). }
  match goal with
  | |- context [fold_left ?step required []] =>
      set (errors := fold_left step required []);
      assert (Herr : errors = [] <-> required = [])
  end.
  { split.
    - intros H. destruct required as [|e l] eqn:Hr; [reflexivity|].
      exfalso. revert H. apply fold_errors_nonempty.
      + intros a e0. destruct (String.eqb _ _); [apply obj_set_nonempty|].
        destruct (String.eqb _ _); apply obj_set_nonempty.
      + right. discriminate.
    - intros H. unfold errors. now rewrite H. }
  destruct (String.eqb_spec
              (Utils.validateFutureDate Date_getTime now (date fd) 1) "")
    as [Hd|Hd]; cbn [negb].
  - rewrite Nat.eqb_eq, length_zero_iff_nil, Herr, Hreq.
    apply Hdate in Hd. tauto.
  - split.
    + intros H. apply Nat.eqb_eq, length_zero_iff_nil in H.
      exfalso. revert H. apply obj_set_nonempty.
    + intros [_ [_ [Hblank H]]]. exfalso. apply Hd, Hdate.
      split; [|assumption]. intros He. apply Hblank. now rewrite He.
Qed.

(** X28. The form is accepted exactly when a therapist and a patient are
    chosen (values not blank), the date is not blank and reads as a date,
    and the date lies strictly more than one hour after now. *)
Theorem validateForm_accepts (fd : FormData) :
  snd (validateForm fd) = true <->
  JsParseInt.trimStart (therapist_id fd) <> ""
  /\ JsParseInt.trimStart (patient_id fd) <> ""
  /\ JsParseInt.trimStart (date fd) <> ""
  /\ exists t, Date_getTime (date fd) = Some t
               /\ now + FormSpec.one_hour < t.
Proof. apply validateForm_ok. Qed.

(** X29. Submitting never loses what the user typed unless the creation
    succeeded.  A form that does not pass validation sends no request and
    stores at least one field error; and when the request fails the form
    values are the ones submitted, [onSuccess] is not called, submitting
    ends and an error text is set. *)
Theorem submit_keeps_input (st : Modal) (e : Client.Thrown) :
  let started := handleSubmit_begin st in
  let failed := handleSubmit_settle (inl e) (fst started) in
  formData (fst started) = formData st
  /\ (snd (validateForm (formData st)) = false ->
      snd started = None
      /\ isSubmitting (fst started) = isSubmitting st
      /\ fieldErrors (fst started) <> [])
  /\ formData (fst failed) = formData st
  /\ snd failed = false
  /\ isSubmitting (fst failed) = false
  /\ exists text, error (fst failed) = Some text.
Proof.
  cbv zeta. unfold CreateSessionModal.handleSubmit_begin.
  destruct (CreateSessionModal.validateForm toUpperCase Date_getTime now
              (formData st)) as [errors valid] eqn:Hv.
  assert (Hvalid : valid = (List.length errors =? 0)%nat).
  { unfold CreateSessionModal.validateForm in Hv. now injection Hv as <- <-. }
  cbn [snd]. destruct valid; cbn [negb].
  - destruct (Date_getTime (date (formData st))); cbn;
      repeat split; try discriminate; eauto.
  - cbn. repeat split; eauto.
    intros ->. discriminate.
Qed.

(** X30. A form that names a therapist and a patient by the decimal text
    of their ids, with a date that reads as a time more than one hour
    ahead, is sent; the body sent passes the creation schema with those
    two ids and the ISO text of that time, provided the schema's date-time
    test accepts that text. *)
Theorem submitted_form_passes_schema
  (is_datetime : string -> bool) (st : Modal) (t p ms : Z) :
  0 < t <= JsNumber.MAX_SAFE_INTEGER ->
  0 < p <= JsNumber.MAX_SAFE_INTEGER ->
  therapist_id (formData st) = JsNumber.toString t ->
  patient_id (formData st) = JsNumber.toString p ->
  JsParseInt.trimStart (date (formData st)) <> "" ->
  Date_getTime (date (formData st)) = Some ms ->
  now + FormSpec.one_hour < ms ->
  is_datetime (toISOString ms) = true ->
  exists body,
    handleSubmit_begin st = (mkModal (formData st) [] None true, Some body)
    /\ Zod.createSessionSchema is_datetime body =
       inr (Zod.mkCreateSession t p (toISOString ms)).
Proof.
  intros Ht Hp Hft Hfp Hblank Hdate Hms Hiso.
  assert (Hok : snd (validateForm (formData st)) = true).
  { apply validateForm_ok. rewrite Hft, Hfp.
    destruct (NumberProps.toString_not_blank t ltac:(lia)) as [-> Hnt].
    destruct (NumberProps.toString_not_blank p ltac:(lia)) as [-> Hnp].
    repeat split; try assumption. eauto. }
  unfold CreateSessionModal.handleSubmit_begin.
  destruct (CreateSessionModal.validateForm toUpperCase Date_getTime now
              (formData st)) as [errors valid] eqn:Hv.
  cbn [snd] in Hok. subst valid. cbn [negb]. rewrite Hdate.
  eexists. split; [reflexivity|].
  rewrite Hft, Hfp, !NumberProps.parseInt_toString_any.
  unfold Zod.createSessionSchema.
  cbn [get assoc String.eqb Ascii.eqb Bool.eqb andb stringify_number].
  unfold Zod.number_int_positive, Zod.string_datetime.
  assert (Hint : forall z, isInteger (inject_Z z) = true).
  { intros z. unfold isInteger. simpl. now rewrite Z.mod_1_r. }
  assert (Hposq : forall z, 0 < z -> isPositive (inject_Z z) = true).
  { intros z Hz. unfold isPositive. simpl. now apply Z.ltb_lt. }
  assert (Hto : forall z, toInteger (inject_Z z) = z).
  { intros z. unfold toInteger. simpl. apply Z.div_1_r. }
  rewrite !Hint, (Hposq t), (Hposq p), !Hto, Hiso by lia.
  reflexivity.
Qed.

End WithBuiltins.

End FormProps.

(* ================================================================== *)
(** ** The further properties at sample inputs *)

Module MoreWitnesses.

Import Json Zod Db Api.

Lemma three_sessions_wf : Invariants.store_wf Fixtures.three_sessions.
Proof.
  unfold Invariants.store_wf. simpl. split; [lia|]. split; [|split].
  - repeat (constructor; [simpl; intuition discriminate|]). constructor.
  - repeat (constructor; [simpl; lia|]). constructor.
  - repeat (constructor; [simpl; auto|]). constructor.
Qed.

Lemma patch_unknown_id_is_404_witness :
  Api.PATCH Fixtures.sample_message Fixtures.production
    Fixtures.three_sessions "999999" (Parsed Fixtures.completed_body) =
  (mkResponse 404 (BError "Session not found") [], Fixtures.three_sessions).
Proof.
  apply (ApiMore.patch_unknown_id_is_404 Fixtures.sample_message
           Fixtures.production Fixtures.three_sessions "999999" 999999
           Fixtures.completed_body Completed eq_refl eq_refl).
  - unfold Int4.max. lia.
  - reflexivity.
  - intros s Hin. simpl in Hin.
    destruct Hin as [<-|[<-|[<-|[]]]]; discriminate.
Defined.

Lemma patch_changes_status_witness :
  fst (Api.PATCH Fixtures.sample_message Fixtures.production
         Fixtures.three_sessions "1" (Parsed Fixtures.completed_body)) =
  mkResponse 200
    (BUpdated "Session updated successfully"
       (mkSession 1 1 1 Fixtures.nov8_0900 "Completed"))
    [("Cache-Control", "no-cache")].
Proof.
  rewrite (proj1 (ApiMore.patch_changes_status Fixtures.sample_message
                    Fixtures.production Fixtures.three_sessions "1" 1
                    (mkSession 1 1 1 Fixtures.nov8_0900 "Scheduled")
                    Fixtures.completed_body Completed eq_refl eq_refl eq_refl
                    ltac:(discriminate) eq_refl)).
  reflexivity.
Defined.

Lemma handlers_keep_store_wf_witness :
  Invariants.store_wf
    (snd (Api.POST Fixtures.utc_seconds Fixtures.sample_Date_of
            Fixtures.sample_message Fixtures.production
            Fixtures.three_sessions (Parsed (JObj Fixtures.scenario_fields))))
  /\ Invariants.store_wf
       (snd (Api.PATCH Fixtures.sample_message Fixtures.production
               Fixtures.three_sessions "1" (Parsed Fixtures.completed_body))).
Proof.
  split.
  - apply (proj1 (ApiMore.handlers_keep_store_wf Fixtures.utc_seconds
                    Fixtures.sample_Date_of Fixtures.sample_message
                    Fixtures.production Fixtures.three_sessions "1"
                    (Parsed (JObj Fixtures.scenario_fields))
                    three_sessions_wf)).
  - apply (proj2 (ApiMore.handlers_keep_store_wf Fixtures.utc_seconds
                    Fixtures.sample_Date_of Fixtures.sample_message
                    Fixtures.production Fixtures.three_sessions "1"
                    (Parsed Fixtures.completed_body) three_sessions_wf)).
Defined.

Lemma post_then_list_witness :
  In (mkDetails 1 Fixtures.nov8_0900 "Scheduled" 1 1 (Some "Anna SLP")
        (Some "Ariel Underwood"))
    (Spec.listed
       (GET (snd (Api.POST Fixtures.utc_seconds Fixtures.sample_Date_of
                    Fixtures.sample_message Fixtures.production
                    Fixtures.three_sessions
                    (Parsed (JObj Fixtures.scenario_fields)))))).
Proof.
  apply (proj1 (ApiMore.post_then_list Fixtures.utc_seconds
                  Fixtures.sample_Date_of Fixtures.sample_message
                  Fixtures.production Fixtures.three_sessions
                  (Parsed (JObj Fixtures.scenario_fields)) eq_refl)).
  simpl. left. reflexivity.
Defined.

Lemma patch_then_list_witness :
  Spec.listed
    (GET (snd (Api.PATCH Fixtures.sample_message Fixtures.production
                 Fixtures.three_sessions "1"
                 (Parsed Fixtures.completed_body))))
  = map (Invariants.set_details_status 1 "Completed")
      (Spec.listed (GET Fixtures.three_sessions)).
Proof.
  assert (Hbefore : Permutation (Spec.listed (GET Fixtures.three_sessions))
                      (joined Fixtures.three_sessions)).
  { apply Permutation_sym, ApiProps.orderBy_date_perm. }
  assert (Hafter :
    Permutation
      (Spec.listed
         (GET (snd (Api.PATCH Fixtures.sample_message Fixtures.production
                      Fixtures.three_sessions "1"
                      (Parsed Fixtures.completed_body)))))
      (joined (snd (Api.PATCH Fixtures.sample_message Fixtures.production
                      Fixtures.three_sessions "1"
                      (Parsed Fixtures.completed_body))))).
  { apply Permutation_sym, ApiProps.orderBy_date_perm. }
  assert (Hnd : NoDup (map d_date (Spec.listed (GET Fixtures.three_sessions)))).
  { repeat (constructor; [simpl; intuition discriminate|]). constructor. }
  exact (proj2 (ApiMore.patch_then_list Fixtures.sample_message
                  Fixtures.production Fixtures.three_sessions "1" 1
                  (mkSession 1 1 1 Fixtures.nov8_0900 "Scheduled")
                  Fixtures.completed_body Completed
                  (Spec.listed (GET Fixtures.three_sessions))
                  (Spec.listed
                     (GET (snd (Api.PATCH Fixtures.sample_message
                                  Fixtures.production Fixtures.three_sessions
                                  "1" (Parsed Fixtures.completed_body)))))
                  eq_refl eq_refl eq_refl ltac:(discriminate) eq_refl
                  Hbefore (ApiProps.orderBy_date_sorted _)
                  Hafter (ApiProps.orderBy_date_sorted _)) Hnd).
Defined.

Lemma list_rows_are_sound_witness :
  exists t, In t (therapists Fixtures.three_sessions)
            /\ t_id t = 1 /\ t_name t = "Anna SLP".
Proof.
  apply (proj1 (proj2
    (ApiMore.list_rows_are_sound Fixtures.three_sessions
       (mkDetails 1 Fixtures.nov8_0900 "Scheduled" 1 1 (Some "Anna SLP")
          (Some "Ariel Underwood"))
       (or_introl eq_refl)))).
Defined.

Lemma list_has_one_row_per_session_witness :
  List.length (Spec.listed (GET Fixtures.three_sessions)) = 3%nat.
Proof.
  apply (proj2 (ApiMore.list_has_one_row_per_session Fixtures.three_sessions
                  ltac:(simpl; repeat (constructor;
                                       [simpl; intuition discriminate|]);
                        constructor)
                  ltac:(simpl; repeat (constructor;
                                       [simpl; intuition discriminate|]);
                        constructor))).
Defined.

Lemma legacy_patch_writes_the_same_witness :
  snd (Legacy.PATCH Fixtures.three_sessions "0"
         (Parsed Fixtures.completed_body))
  = snd (Api.PATCH Fixtures.sample_message Fixtures.production
           Fixtures.three_sessions "0" (Parsed Fixtures.completed_body)).
Proof.
  apply (LegacyProps.legacy_patch_writes_the_same Fixtures.sample_message
           Fixtures.production Fixtures.three_sessions "0"
           (Parsed Fixtures.completed_body) three_sessions_wf).
Defined.


Lemma parseInt_toString_witness :
  JsParseInt.parseInt (JsNumber.toString 120) = Some 120.
Proof.
  apply (NumberProps.parseInt_toString 120).
  unfold JsNumber.MAX_SAFE_INTEGER. simpl. lia.
Defined.

Lemma strict_positive_id_is_accepted_witness :
  exists n, JsParseInt.parseInt "12" = Some n /\ 0 < n.
Proof.
  apply (proj1 (NumberProps.strict_positive_id_is_accepted
                  Fixtures.sample_message Fixtures.production
                  Fixtures.three_sessions "12"
                  (Parsed Fixtures.completed_body) eq_refl)).
Defined.

Lemma mark_completed_reaches_the_session_witness :
  fst (Api.PATCH Fixtures.sample_message Fixtures.production
         Fixtures.twelve_sessions (Invariants.markCompleted_id_param 12)
         (Parsed Invariants.markCompleted_body))
  = mkResponse 200
      (BUpdated "Session updated successfully"
         (mkSession 12 1 1 (Fixtures.nov8_0900 + 12) "Completed"))
      [("Cache-Control", "no-cache")].
Proof.
  rewrite (NumberProps.mark_completed_reaches_the_session
             Fixtures.sample_message Fixtures.production
             Fixtures.twelve_sessions 12
             (mkSession 12 1 1 (Fixtures.nov8_0900 + 12) "Scheduled")
             ltac:(unfold JsNumber.MAX_SAFE_INTEGER; lia) eq_refl eq_refl).
  reflexivity.
Defined.

End MoreWitnesses.

Module ClientWitnesses.

Import Json Client.

Lemma failed_update_shows_error_panel_witness :
  Home_view
    (home
       (handleMarkCompleted_settle
          (snd (handleMarkCompleted_begin Fixtures.page_rows 1
                  Fixtures.loaded_page))
          (inl (JsError false "Failed to update session"))
          (fst (handleMarkCompleted_begin Fixtures.page_rows 1
                  Fixtures.loaded_page))))
  = ErrorPanel "Failed to update session. Please try again." FetchSessions.
Proof.
  apply (proj1 (ClientMore.failed_update_shows_error_panel
                  Fixtures.page_rows 1
                  (mkRow 1 1 1 "2025-11-15T09:00:00.000Z" "Scheduled"
                     (Some "Dr. Sarah Johnson") (Some "John Smith"))
                  Fixtures.loaded_page
                  (fst (handleMarkCompleted_begin Fixtures.page_rows 1
                          Fixtures.loaded_page))
                  (JsError false "Failed to update session")
                  eq_refl eq_refl)).
Defined.

Lemma no_rollback_without_captured_status_witness :
  handleMarkCompleted_settle
    (snd (handleMarkCompleted_begin Fixtures.page_rows 99
            Fixtures.loaded_page))
    (inl (JsError false "Session not found")) Fixtures.loaded_page
  = mkApp (home Fixtures.loaded_page) None.
Proof.
  apply (ClientMore.no_rollback_without_captured_status Fixtures.page_rows 99
           Fixtures.loaded_page Fixtures.loaded_page
           (inl (JsError false "Session not found"))).
  simpl. exact I.
Defined.

Lemma clicked_row_has_no_button_witness :
  row_action
    (fst (handleMarkCompleted_begin Fixtures.page_rows 1
            Fixtures.loaded_page))
    (mkRow 1 1 1 "2025-11-15T09:00:00.000Z" "Completed"
       (Some "Dr. Sarah Johnson") (Some "John Smith"))
  = CompletedIndicator.
Proof.
  apply (proj1 (ClientMore.clicked_row_has_no_button Fixtures.page_rows
                  (sessions
                     (home (fst (handleMarkCompleted_begin Fixtures.page_rows
                                   1 Fixtures.loaded_page))))
                  1 Fixtures.loaded_page (fun x H => H))).
  - simpl. left. reflexivity.
  - reflexivity.
Defined.

Lemma nameless_session_is_hidden_witness :
  ~ In Samples.nameless_row
      (Dashboard.filteredSessions Samples.toLowerCase Samples.Date_getTime
         String.ltb Samples.all_filter
         (Samples.nameless_row :: Fixtures.page_rows)).
Proof.
  apply (DashboardProps.nameless_session_is_hidden Samples.toLowerCase
           Samples.Date_getTime String.ltb Samples.all_filter
           (Samples.nameless_row :: Fixtures.page_rows) Samples.nameless_row
           eq_refl eq_refl).
Defined.

Lemma cleared_filters_show_named_sessions_witness :
  In (mkRow 2 2 2 "2025-11-16T14:30:00.000Z" "Completed"
        (Some "Dr. Michael Chen") (Some "Emma Wilson"))
    (Dashboard.filteredSessions Samples.toLowerCase Samples.Date_getTime
       String.ltb (Dashboard.clearFilters Samples.scheduled_filter)
       Fixtures.page_rows).
Proof.
  assert (Hin : In (mkRow 2 2 2 "2025-11-16T14:30:00.000Z" "Completed"
                      (Some "Dr. Michael Chen") (Some "Emma Wilson"))
                  Fixtures.page_rows)
    by (right; left; reflexivity).
  assert (Hname : Some "Dr. Michael Chen" <> None
                  \/ Some "Emma Wilson" <> None)
    by (left; discriminate).
  exact (proj1 (DashboardProps.cleared_filters_show_named_sessions
                  Samples.toLowerCase Samples.Date_getTime String.ltb
                  Samples.scheduled_filter Fixtures.page_rows
                  (mkRow 2 2 2 "2025-11-16T14:30:00.000Z" "Completed"
                     (Some "Dr. Michael Chen") (Some "Emma Wilson"))
                  eq_refl Hin Hname)).
Defined.

Lemma optimistic_row_leaves_scheduled_view_witness :
  id (mkRow 1 1 1 "2025-11-15T09:00:00.000Z" "Scheduled"
        (Some "Dr. Sarah Johnson") (Some "John Smith")) <> 3.
Proof.
  apply (DashboardProps.optimistic_row_leaves_scheduled_view
           Samples.toLowerCase Samples.Date_getTime String.ltb
           Samples.scheduled_filter Fixtures.page_rows 3
           Fixtures.loaded_page
           (mkRow 1 1 1 "2025-11-15T09:00:00.000Z" "Scheduled"
              (Some "Dr. Sarah Johnson") (Some "John Smith"))
           eq_refl).
  vm_compute. left. reflexivity.
Defined.

Lemma create_success_refetches_witness :
  sessions
    (fetchSessions_settle (Resolved Samples.rows_response)
       (Dashboard.onCreateSuccess
          (mkHome [] false None true None)))
  = Fixtures.page_rows.
Proof.
  apply (DashboardProps.create_success_refetches
           (mkHome [] false None true None) Samples.rows_response
           Fixtures.page_rows eq_refl eq_refl).
Defined.

Lemma submitted_form_passes_schema_witness :
  exists body,
    CreateSessionModal.handleSubmit_begin Samples.toUpperCase
      Samples.Date_getTime Samples.now Samples.toISOString
      Samples.filled_modal
    = (CreateSessionModal.mkModal
         (CreateSessionModal.formData Samples.filled_modal) [] None true,
       Some body)
    /\ Zod.createSessionSchema Samples.utc_millis body =
       inr (Zod.mkCreateSession 1 1 "2030-01-01T10:00:00.000Z").
Proof.
  apply (FormProps.submitted_form_passes_schema Samples.toUpperCase
           Samples.Date_getTime Samples.now Samples.toISOString
           Samples.utc_millis Samples.filled_modal 1 1
           Fixtures.jan1_2030_1000).
  - unfold JsNumber.MAX_SAFE_INTEGER. lia.
  - unfold JsNumber.MAX_SAFE_INTEGER. lia.
  - reflexivity.
  - reflexivity.
  - vm_compute. discriminate.
  - reflexivity.
  - vm_compute. reflexivity.
  - reflexivity.
Defined.


Lemma validateFutureDate_accepts_witness :
  Utils.validateFutureDate Samples.Date_getTime Samples.now
    Samples.form_date 1 = "".
Proof.
  apply (proj1 (FormProps.validateFutureDate_accepts Samples.Date_getTime
                  Samples.now Samples.form_date 1
                  ltac:(vm_compute; discriminate)
                  ltac:(vm_compute; discriminate)
                  ltac:(vm_compute; discriminate))).
  split; [discriminate|].
  exists Fixtures.jan1_2030_1000. split; [reflexivity|].
  vm_compute. reflexivity.
Defined.

End ClientWitnesses.
